(** * A shallow embedding of the system monitor ([system_monitor.py]) and of
    its AI reporting client ([aimon.py]).

    Conventions of the embedding.
    - A Python [float] is a rational number of [Q]: every finite binary64
      value is one.  The sum of two floats is rounded to binary64
      ([Py.float_add]); the other operations of the code are exact on
      the values it meets (a comparison, a scaling by a power of two, a
      difference of two clock readings).  Infinities and NaN are not
      modelled.
    - A Python [int] is an integer of [Z].
    - A Python [str] is a [string] whose characters are read as the code
      points 0..255.
    - [None] is the [None] of an [option].
    - An exception is a value of an error type returned in a sum.
    - The operating system and the HTTP endpoint are inputs: the process
      table is the list of the [info] dictionaries that
      [psutil.process_iter] yields, in enumeration order; a gauge read is
      its outcome; the clock is the sequence of its readings. *)

From Stdlib Require Import String Ascii DecimalString List ZArith QArith Bool.
From Stdlib Require Import Qround Qabs.
From Stdlib Require Import Lia Lqa Permutation Sorted.
Import ListNotations.

Open Scope Z_scope.

#[local] Set Warnings "-register-all".

(* ===================================================================== *)
(** ** Python built-ins used by the code *)
(* ===================================================================== *)

Module Py.

(** [sorted(l, key=key, reverse=True)]: the stable sort of [l] in
    descending order of [key].  Elements with equal keys keep the order
    they have in [l] (also with [reverse=True]).  [insert_desc x l] puts
    [x], which precedes every element of [l] in the input, before the
    first element whose key is not greater than its own. *)
Section Sorted.
Context {A : Type}.
Variable key : A -> Q.

Fixpoint insert_desc (x : A) (l : list A) : list A :=
  match l with
  | [] => [x]
  | y :: l' =>
      if Qle_bool (key y) (key x) then x :: y :: l'
      else y :: insert_desc x l'
  end.

Definition sorted_desc (l : list A) : list A :=
  fold_right insert_desc [] l.

(** The elements of [l] whose key equals [k], in the order of [l]. *)
Definition with_key (k : Q) (l : list A) : list A :=
  filter (fun a => Qeq_bool (key a) k) l.

(** Descending order of the keys. *)
Definition descending (l : list A) : Prop :=
  StronglySorted (fun a b => (key b <= key a)%Q) l.
End Sorted.

(** Binary64 arithmetic.  [pow2 k] is 2 to the power [k]. *)
Definition pow2 (k : Z) : Q :=
  if 0 <=? k then inject_Z (2 ^ k) else 1 # Z.to_pos (2 ^ (- k)).

(** The exponent [e] of a positive [q]: [2^e <= q < 2^(e+1)]. *)
Definition floor_log2 (q : Q) : Z :=
  let c := Z.log2 (Qnum q) - Z.log2 (Zpos (Qden q)) in
  if Qle_bool (pow2 c) q then c else c - 1.

(** The nearest integer, a tie going to the even one. *)
Definition round_half_even (q : Q) : Z :=
  let f := Qfloor q in
  match (q - inject_Z f ?= 1 # 2)%Q with
  | Lt => f
  | Gt => f + 1
  | Eq => if Z.even f then f else f + 1
  end.

(** The binary64 value nearest to [q], ties to even: 53 significant
    bits, and multiples of [2^-1074] below the normal range.  A result
    beyond the largest finite value, which Python gives as [inf], is not
    modelled. *)
Definition round64 (q : Q) : Q :=
  if Qeq_bool q 0 then 0%Q
  else
    let a := Qabs q in
    let e := Z.max (floor_log2 a - 52) (-1074) in
    let r := (inject_Z (round_half_even (a / pow2 e)) * pow2 e)%Q in
    if Qle_bool 0 q then r else (- r)%Q.

(** [x + y] on floats. *)
Definition float_add (x y : Q) : Q := round64 (x + y).

(** [l[:stop]]: a negative [stop] counts from the end of the list and
    is clipped at 0. *)
Definition slice_to {A : Type} (stop : Z) (l : list A) : list A :=
  let n := Z.of_nat (length l) in
  let stop' := if stop <? 0 then Z.max 0 (n + stop) else stop in
  firstn (Z.to_nat stop') l.

(** Exceptions, as far as the code raises, catches or lets them pass.
    [Exception_ msg] is [raise Exception(msg)]; [RequestException] is
    caught where it is raised and never leaves [chat_completions]. *)
Inductive error : Type :=
| ValueError (msg : string)
| KeyError
| IndexError
| TypeError
| Exception_ (msg : string).

(** The outcome of a call: a value or a raised exception. *)
Inductive result (A : Type) : Type :=
| Ok (a : A)
| Raise (e : error).
Arguments Ok {A} a.
Arguments Raise {A} e.

Definition bind {A B : Type} (r : result A) (k : A -> result B)
  : result B :=
  match r with
  | Ok a => k a
  | Raise e => Raise e
  end.

(** [str.isspace] on the code points 0..255: the characters that
    [str.strip()] removes. *)
Definition isspace (c : ascii) : bool :=
  let n := nat_of_ascii c in
  (((9 <=? n) && (n <=? 13)) || ((28 <=? n) && (n <=? 32))
   || (n =? 133) || (n =? 160))%nat.

Fixpoint lstrip (s : string) : string :=
  match s with
  | EmptyString => EmptyString
  | String c s' => if isspace c then lstrip s' else s
  end.

Fixpoint rstrip (s : string) : string :=
  match s with
  | EmptyString => EmptyString
  | String c s' =>
      match rstrip s' with
      | EmptyString => if isspace c then EmptyString else String c EmptyString
      | r => String c r
      end
  end.

(** [s.strip()] *)
Definition strip (s : string) : string := rstrip (lstrip s).

(** Whether every character of [s] is white space. *)
Fixpoint all_space (s : string) : bool :=
  match s with
  | EmptyString => true
  | String c s' => isspace c && all_space s'
  end.

(** The truth value of a [str]: false on the empty string only. *)
Definition truthy (s : string) : bool :=
  match s with
  | EmptyString => false
  | String _ _ => true
  end.

(** [s.replace(c, t)] for a one-character [c]. *)
Fixpoint replace (c : ascii) (t : string) (s : string) : string :=
  match s with
  | EmptyString => EmptyString
  | String d s' =>
      if Ascii.eqb d c then append t (replace c t s')
      else String d (replace c t s')
  end.

(** [c in s] for a one-character [c]. *)
Fixpoint contains_char (c : ascii) (s : string) : bool :=
  match s with
  | EmptyString => false
  | String d s' => Ascii.eqb d c || contains_char c s'
  end.

(** [s[:n]] for [n >= 0]. *)
Definition prefix_to (n : nat) (s : string) : string := substring 0 n s.

(** [str.lower] on the code points 0..255: A-Z and the Latin-1 capitals
    (0xC0..0xDE without the multiplication sign 0xD7) move up by 32. *)
Definition lower_char (c : ascii) : ascii :=
  let n := nat_of_ascii c in
  if (((65 <=? n) && (n <=? 90))
      || ((192 <=? n) && (n <=? 222) && negb (n =? 215)))%nat
  then ascii_of_nat (n + 32) else c.

Fixpoint lower (s : string) : string :=
  match s with
  | EmptyString => EmptyString
  | String c s' => String (lower_char c) (lower s')
  end.

(** [sub in s] *)
Fixpoint contains (sub s : string) : bool :=
  String.prefix sub s
  || match s with
     | EmptyString => false
     | String _ s' => contains sub s'
     end.

(** [sep.join(l)] *)
Definition join (sep : string) (l : list string) : string :=
  String.concat sep l.

(** [str(n)] of an [int]. *)
Definition str_int (n : Z) : string :=
  DecimalString.NilZero.string_of_int (Z.to_int n).

(** [str(x)] of a [str] or [None]. *)
Definition str_opt (x : option string) : string :=
  match x with
  | Some s => s
  | None => "None"
  end.

(** A dictionary with [str] keys, as the list of its items in insertion
    order; [get k d] is [d.get(k)]. *)
Fixpoint get {V : Type} (k : string) (d : list (string * V)) : option V :=
  match d with
  | [] => None
  | (k', v) :: d' => if String.eqb k' k then Some v else get k d'
  end.

End Py.

Notation "x <- r ;; k" := (Py.bind r (fun x => k))
  (at level 61, r at next level, right associativity).


(* ===================================================================== *)
(** ** The process table, as [psutil.process_iter] yields it *)
(* ===================================================================== *)

(** [pcputimes]: cumulative CPU seconds; the code reads the first two. *)
Module pcputimes.
Record t := mk {
  user : Q;
  system : Q;
  children_user : Q;
  children_system : Q
}.
End pcputimes.

(** [pmem]: the code reads [rss] only; the tuple has no [percent]. *)
Module pmem.
Record t := mk {
  rss : Z;
  vms : Z
}.
End pmem.

(** The [info] dictionary of one process.  An attribute that the process
    denies access to is [None]. *)
Record ProcInfo := mkProcInfo {
  info_pid : Z;
  info_name : option string;
  info_username : option string;
  info_cmdline : option (list string);
  info_cpu_percent : option Q;
  info_cpu_times : option pcputimes.t;
  info_memory_info : option pmem.t
}.

(** The dictionaries that [list_processes] builds. *)
Record ProcessRecord := mkProcessRecord {
  pid : Z;
  name : option string;
  username : option string;
  cmdline : string;
  cpu_percent : option Q;
  memory_percent : option Q;
  rss : Z
}.

(** A value of the [system_info] dictionary. *)
Inductive gauge : Type :=
| GFloat (q : Q)
| GInt (n : Z).

(* ===================================================================== *)
(** ** JSON values, as [response.json()] returns them *)
(* ===================================================================== *)

Module Json.

Inductive value : Type :=
| Null
| Bool_ (b : bool)
| Int (n : Z)
| Float (q : Q)
| Str (s : string)
| List_ (l : list value)
| Dict (items : list (string * value)).

(** [v[k]] for a [str] key: only a dictionary takes one. *)
Definition getitem_key (v : value) (k : string) : Py.result value :=
  match v with
  | Dict items =>
      match Py.get k items with
      | Some x => Py.Ok x
      | None => Py.Raise Py.KeyError
      end
  | _ => Py.Raise Py.TypeError
  end.

(** The position that index [i] names in a sequence of [n] elements. *)
Definition position (i : Z) (n : nat) : option nat :=
  let j := if i <? 0 then Z.of_nat n + i else i in
  if (0 <=? j) && (j <? Z.of_nat n) then Some (Z.to_nat j) else None.

(** [v[i]] for an [int] index: a list and a string are indexed, a
    dictionary of a JSON object has no [int] key, and the other values
    are not subscriptable. *)
Definition getitem_index (v : value) (i : Z) : Py.result value :=
  match v with
  | List_ l =>
      match position i (length l) with
      | Some j =>
          match nth_error l j with
          | Some x => Py.Ok x
          | None => Py.Raise Py.IndexError
          end
      | None => Py.Raise Py.IndexError
      end
  | Str s =>
      match position i (String.length s) with
      | Some j =>
          match String.get j s with
          | Some c => Py.Ok (Str (String c EmptyString))
          | None => Py.Raise Py.IndexError
          end
      | None => Py.Raise Py.IndexError
      end
  | Dict _ => Py.Raise Py.KeyError
  | _ => Py.Raise Py.TypeError
  end.

End Json.

(* ===================================================================== *)
(** ** aimon.py *)
(* ===================================================================== *)

Module Aimon.

(** *** The HTTP library, as far as the client uses it *)

(** [requests.Response]: [json_] is what [response.json()] does, the
    decoded body or the text of the decoding error it raises. *)
Record Response := mkResponse {
  status_code : Z;
  reason : string;
  url : string;
  text : string;
  json_ : string + Json.value;
  iter_lines : list string
}.

(** The truth value of a [Response] is its [ok]: false exactly when
    [raise_for_status] would raise. *)
Definition is_error_status (r : Response) : bool :=
  (400 <=? status_code r) && (status_code r <? 600).

Definition ok (r : Response) : bool := negb (is_error_status r).

(** [requests.RequestException]: [str(e)] and [e.response]. *)
Record RequestException := mkRequestException {
  str_e : string;
  response : option Response
}.

(** The message of the [HTTPError] that [raise_for_status] raises. *)
Definition http_error_msg (r : Response) : string :=
  (Py.str_int (status_code r)
   ++ (if (status_code r <? 500)%Z then " Client Error: " else " Server Error: ")
   ++ reason r ++ " for url: " ++ url r)%string.

(** The response of the specification's example: HTTP 429 with the
    body [{"error":{"message":"rate limited"}}]. *)
Definition quote : string := String (ascii_of_nat 34) EmptyString.

Definition rate_limited_response : Response :=
  mkResponse 429 "Too Many Requests"
    "https://api.groq.com/openai/v1/chat/completions"
    ("{" ++ quote ++ "error" ++ quote ++ ":{" ++ quote ++ "message" ++ quote
     ++ ":" ++ quote ++ "rate limited" ++ quote ++ "}}")
    (inr (Json.Dict
            [("error"%string,
              Json.Dict [("message"%string, Json.Str "rate limited")])]))
    [].

(** The JSON body of the request. *)
Record Request := mkRequest {
  req_url : string;
  req_authorization : string;
  req_messages : list (string * string);
  req_model : string;
  req_temperature : Q;
  req_max_tokens : Z;
  req_top_p : Q;
  req_stream : bool;
  req_stop : option (list string)
}.

(** What [requests.post] does with a request: it raises before any
    response arrives, or it returns the response. *)
Inductive PostOutcome : Type :=
| PostRaises (e : RequestException)
| PostReturns (r : Response).

(** What [chat_completions] returns. *)
Inductive Completion : Type :=
| JsonResponse (v : Json.value)
| LineStream (lines : list string).

(** *** class Groq *)

Record Groq := mkGroq {
  api_key : string;
  base_url : string
}.

(** [Groq.__init__] *)
Definition Groq_init (api_key : string) : Py.result Groq :=
  if negb (Py.truthy api_key)
  then Py.Raise (Py.ValueError "API key is required")
  else Py.Ok (mkGroq (Py.strip api_key) "https://api.groq.com/openai/v1").

(** [initialize_client] *)
Definition initialize_client (api_key : string) : Py.result Groq :=
  Groq_init api_key.

Section Client.

(** [str(v)] of a JSON value that is not a string, where the code
    formats one into a message. *)
Variable str_value : Json.value -> string.

(** [f"{value:.2f}"] of a float. *)
Variable format_2f : Q -> string.

(** The remote endpoint. *)
Variable post : Request -> PostOutcome.

Definition format_value (v : Json.value) : string :=
  match v with
  | Json.Str s => s
  | _ => str_value v
  end.

(** The [except requests.RequestException as e] handler of
    [chat_completions], up to the text of the message.  The bare
    [except] inside it turns every failure into [str(e)]: a body that
    is not JSON, and a body or an ["error"] member that is not a
    dictionary and so has no [get]. *)
Definition error_message (e : RequestException) : string :=
  match response e with
  | Some r =>
      if ok r && Py.truthy (text r) then
        match json_ r with
        | inr (Json.Dict error_details) =>
            match Py.get "error" error_details with
            | None => str_e e
            | Some (Json.Dict err) =>
                match Py.get "message" err with
                | Some m => format_value m
                | None => str_e e
                end
            | Some _ => str_e e
            end
        | inr _ => str_e e
        | inl _ => str_e e
        end
      else str_e e
  | None => str_e e
  end.

Definition handle_request_exception {A : Type} (e : RequestException)
  : Py.result A :=
  Py.Raise (Py.Exception_ ("Groq API Error: " ++ error_message e)).

(** [Groq.chat_completions] *)
Definition chat_completions (self : Groq)
    (messages : list (string * string)) (model : string)
    (temperature : Q) (max_completion_tokens : Z) (top_p : Q)
    (stream : bool) (stop : option (list string))
  : Py.result Completion :=
  let url := (base_url self ++ "/chat/completions")%string in
  let data :=
    mkRequest url ("Bearer " ++ api_key self) messages model temperature
      max_completion_tokens top_p stream stop in
  match post data with
  | PostRaises e => handle_request_exception e
  | PostReturns response =>
      if is_error_status response then
        handle_request_exception
          (mkRequestException (http_error_msg response) (Some response))
      else if stream then Py.Ok (LineStream (iter_lines response))
      else
        match json_ response with
        | inr v => Py.Ok (JsonResponse v)
        | inl msg =>
            handle_request_exception (mkRequestException msg None)
        end
  end.

(** Lines 87-94 of [get_ai_response_content]: the content of the first
    choice; [KeyError] and [IndexError] become the malformed-response
    exception, any other exception passes. *)
Definition extract_content (response_json : Json.value)
  : Py.result Json.value :=
  match
    (choices <- Json.getitem_key response_json "choices" ;;
     first <- Json.getitem_index choices 0 ;;
     message <- Json.getitem_key first "message" ;;
     Json.getitem_key message "content")
  with
  | Py.Ok content => Py.Ok content
  | Py.Raise Py.KeyError | Py.Raise Py.IndexError =>
      Py.Raise (Py.Exception_ "Malformed response from Groq API")
  | Py.Raise e => Py.Raise e
  end.

(** [get_ai_response_content], with the default model and no keyword
    arguments, as [analyze_system_data] calls it.  A line stream, which
    [stream=False] never yields, is not subscriptable. *)
Definition get_ai_response_content (client : Groq) (user_input : string)
  : Py.result Json.value :=
  if negb (Py.truthy (Py.strip user_input))
  then Py.Raise (Py.ValueError "Input is required")
  else
    let messages := [("user"%string, user_input)] in
    completion <- chat_completions client messages
                    "llama-3.3-70b-versatile" 1 1024 1 false None ;;
    match completion with
    | JsonResponse response_json => extract_content response_json
    | LineStream _ => Py.Raise Py.TypeError
    end.

(** *** analyze_system_data *)

Definition newline : ascii := ascii_of_nat 10.
Definition carriage_return : ascii := ascii_of_nat 13.
Definition nl : string := String newline EmptyString.

(** The lines of the system information, one per item of the
    dictionary, in its order. *)
Definition system_info_line (item : string * gauge) : string :=
  match snd item with
  | GFloat value => "- " ++ fst item ++ ": " ++ format_2f value ++ nl
  | GInt value => "- " ++ fst item ++ ": " ++ Py.str_int value ++ nl
  end.

(** [sorted(processes, key=lambda p: p.get('cpu_percent', 0),
    reverse=True)].  Every record of [list_processes] has the key, so
    the default 0 is never taken and a [None] stays [None].  Sorting
    two or more elements compares each of them at least once, and a
    comparison with [None] raises [TypeError]. *)
Definition cpu_key (p : ProcessRecord) : Q :=
  match cpu_percent p with
  | Some c => c
  | None => 0
  end.

Definition has_cpu_percent (p : ProcessRecord) : bool :=
  match cpu_percent p with
  | Some _ => true
  | None => false
  end.



Definition sorted_by_cpu_percent (processes : list ProcessRecord)
  : Py.result (list ProcessRecord) :=
  match processes with
  | [] | [_] => Py.Ok processes
  | _ =>
      if forallb has_cpu_percent processes
      then Py.Ok (Py.sorted_desc cpu_key processes)
      else Py.Raise Py.TypeError
  end.

(** [processes_for_prompt] *)
Definition processes_for_prompt (processes : list ProcessRecord)
  : Py.result (list ProcessRecord) :=
  sorted <- sorted_by_cpu_percent processes ;;
  Py.Ok (Py.slice_to 20 sorted).

(** [cmdline_display] *)
Definition cmdline_display (p : ProcessRecord) : string :=
  let cmdline_display := cmdline p in
  let cmdline_display :=
    if (100 <? String.length cmdline_display)%nat
    then (Py.prefix_to 97 cmdline_display ++ "...")%string
    else cmdline_display in
  Py.replace carriage_return "" (Py.replace newline " " cmdline_display).

(** [mem_display] *)
Definition mem_display (p : ProcessRecord) : string :=
  match memory_percent p with
  | Some mem_percent => format_2f mem_percent ++ "%"
  | None => "N/A"
  end.

(** The text of a process line before its command-line field; the
    format [.2f] raises [TypeError] on [None]. *)
Definition process_line_head (p : ProcessRecord) : Py.result string :=
  match cpu_percent p with
  | Some cpu =>
      Py.Ok ("- PID: " ++ Py.str_int (pid p)
             ++ ", Name: " ++ Py.str_opt (name p)
             ++ ", User: " ++ Py.str_opt (username p)
             ++ ", CPU: " ++ format_2f cpu
             ++ "%, Memory: " ++ mem_display p
             ++ ", Cmdline: ")%string
  | None => Py.Raise Py.TypeError
  end.

(** One process line of the prompt. *)
Definition process_line (p : ProcessRecord) : Py.result string :=
  head <- process_line_head p ;;
  Py.Ok (head ++ cmdline_display p ++ nl)%string.

Fixpoint process_lines (ps : list ProcessRecord)
  : Py.result (list string) :=
  match ps with
  | [] => Py.Ok []
  | p :: ps' =>
      line <- process_line p ;;
      lines <- process_lines ps' ;;
      Py.Ok (line :: lines)
  end.

(** The process lines of the prompt for a non-empty process list. *)
Definition prompt_process_lines (processes : list ProcessRecord)
  : Py.result (list string) :=
  selected <- processes_for_prompt processes ;;
  process_lines selected.

Definition prompt_head : string :=
  "Analyze the following system data and provide concise advice on potential congestion, overload, or malicious activity."
  ++ nl ++ nl ++ "System Information:" ++ nl.

Definition prompt_tail : string :=
  nl ++ "Based on this data, identify any potential issues (high resource usage, unusual processes, potential malicious indicators) and provide concise, actionable advice. If everything looks normal, state that.".

(** The prompt that [analyze_system_data] builds. *)
Definition build_prompt (system_info : list (string * gauge))
    (processes : list ProcessRecord) : Py.result string :=
  let prompt :=
    (prompt_head ++ String.concat "" (map system_info_line system_info)
     ++ nl ++ "Running Processes:" ++ nl)%string in
  match processes with
  | [] =>
      Py.Ok (prompt ++ "No process data available." ++ nl ++ prompt_tail)%string
  | _ =>
      lines <- prompt_process_lines processes ;;
      Py.Ok (prompt ++ String.concat "" lines ++ prompt_tail)%string
  end.

(** What [analyze_system_data] prints after the prompt is built: the
    advice, or the error of the call. *)
Inductive Report : Type :=
| Advice (advice : Json.value)
| AnalysisError (e : Py.error).

(** [analyze_system_data]: an exception of the call to the AI is
    printed; an exception while the prompt is built is not caught. *)
Definition analyze_system_data (client : Groq)
    (system_info : list (string * gauge))
    (processes : list ProcessRecord) : Py.result Report :=
  prompt <- build_prompt system_info processes ;;
  match get_ai_response_content client prompt with
  | Py.Ok advice => Py.Ok (Advice advice)
  | Py.Raise e => Py.Ok (AnalysisError e)
  end.

End Client.

End Aimon.


(* ===================================================================== *)
(** ** system_monitor.py *)
(* ===================================================================== *)

Module SystemMonitor.

(** *** get_system_info *)

(** The outcome of each of the four reads of [get_system_info], in the
    order the code performs them: [psutil.cpu_percent(interval=1)],
    the [percent] of [psutil.virtual_memory()] and of
    [psutil.disk_usage('/')], and the [bytes_sent] and [bytes_recv] of
    [psutil.net_io_counters()]. *)
Record HostReads := mkHostReads {
  read_cpu_percent : Py.result Q;
  read_virtual_memory : Py.result Q;
  read_disk_usage : Py.result Q;
  read_net_io_counters : Py.result (Z * Z)
}.

(** The [try] block of [get_system_info]: the first read that raises
    ends it. *)
Definition gather (os : HostReads) : Py.result (list (string * gauge)) :=
  cpu_percent <- read_cpu_percent os ;;
  memory_percent <- read_virtual_memory os ;;
  disk_percent <- read_disk_usage os ;;
  net_io <- read_net_io_counters os ;;
  Py.Ok [ ("cpu_percent"%string, GFloat cpu_percent);
          ("memory_percent"%string, GFloat memory_percent);
          ("disk_percent"%string, GFloat disk_percent);
          ("bytes_sent"%string, GInt (fst net_io));
          ("bytes_received"%string, GInt (snd net_io)) ].

(** [get_system_info]: [except Exception] prints the error and returns
    the empty dictionary. *)
Definition get_system_info (os : HostReads) : list (string * gauge) :=
  match gather os with
  | Py.Ok system_info => system_info
  | Py.Raise _ => []
  end.

(** The reading of the host snapshot in which every gauge that was
    read is in the dictionary with its value, whatever the other reads
    did. *)
Definition keeps_successful_reads (os : HostReads) : Prop :=
  let system_info := get_system_info os in
  (forall v, read_cpu_percent os = Py.Ok v ->
     Py.get "cpu_percent" system_info = Some (GFloat v))
  /\ (forall v, read_virtual_memory os = Py.Ok v ->
        Py.get "memory_percent" system_info = Some (GFloat v))
  /\ (forall v, read_disk_usage os = Py.Ok v ->
        Py.get "disk_percent" system_info = Some (GFloat v))
  /\ (forall v, read_net_io_counters os = Py.Ok v ->
        Py.get "bytes_sent" system_info = Some (GInt (fst v))
        /\ Py.get "bytes_received" system_info = Some (GInt (snd v))).

(** *** list_processes *)

(** [flt and flt.lower() not in s.lower()], for a filter that is given
    and not empty. *)
Definition filtered_out (flt : option string) (s : string) : bool :=
  match flt with
  | Some f => Py.truthy f && negb (Py.contains (Py.lower f) (Py.lower s))
  | None => false
  end.

(** One iteration of the loop of [list_processes]: [None] when the
    process is skipped.  With a name filter, a process whose name is
    [None] raises [AttributeError] on [lower], which the loop prints and
    skips. *)
Definition list_process (procname cmdline : option string)
    (pinfo : ProcInfo) : option ProcessRecord :=
  let name_passes :=
    match procname with
    | Some f =>
        if Py.truthy f then
          match info_name pinfo with
          | Some n => Py.contains (Py.lower f) (Py.lower n)
          | None => false
          end
        else true
    | None => true
    end in
  if name_passes then
    let process_cmdline :=
      Py.join " "
        (match info_cmdline pinfo with Some l => l | None => [] end) in
    if filtered_out cmdline process_cmdline then None
    else
      Some (mkProcessRecord (info_pid pinfo) (info_name pinfo)
              (info_username pinfo) process_cmdline
              (info_cpu_percent pinfo) None
              (match info_memory_info pinfo with
               | Some m => pmem.rss m
               | None => 0
               end))
  else None.

Fixpoint list_processes (procname cmdline : option string)
    (procs : list ProcInfo) : list ProcessRecord :=
  match procs with
  | [] => []
  | pinfo :: rest =>
      match list_process procname cmdline pinfo with
      | Some record => record :: list_processes procname cmdline rest
      | None => list_processes procname cmdline rest
      end
  end.

(** The dictionary that the loop of [list_processes] appends for a
    process that passes the filters. *)
Definition process_record (pinfo : ProcInfo) : ProcessRecord :=
  mkProcessRecord (info_pid pinfo) (info_name pinfo) (info_username pinfo)
    (Py.join " " (match info_cmdline pinfo with Some l => l | None => [] end))
    (info_cpu_percent pinfo) None
    (match info_memory_info pinfo with
     | Some m => pmem.rss m
     | None => 0
     end).

(** Whether the loop of [list_processes] keeps a process. *)
Definition selects (procname cmdline : option string) (pinfo : ProcInfo)
  : bool :=
  match list_process procname cmdline pinfo with
  | Some _ => true
  | None => false
  end.

(** Whether a filter is given: [None] and the empty string are not. *)
Definition given (flt : option string) : bool :=
  match flt with
  | Some f => Py.truthy f
  | None => false
  end.

(** The name test of the loop: the filter is not given, or the process
    has a name that contains it, cases apart. *)
Definition name_passes (procname : option string) (pinfo : ProcInfo) : bool :=
  negb (given procname)
  || match procname, info_name pinfo with
     | Some f, Some n => Py.contains (Py.lower f) (Py.lower n)
     | _, _ => false
     end.

(** The command-line test of the loop, on the joined command line. *)
Definition cmdline_passes (flt : option string) (joined : string) : bool :=
  negb (given flt)
  || match flt with
     | Some f => Py.contains (Py.lower f) (Py.lower joined)
     | None => false
     end.

(** *** get_top_cpu_processes *)

(** The dictionaries that [get_top_cpu_processes] builds. *)
Record CpuTimeRecord := mkCpuTimeRecord {
  ct_pid : Z;
  ct_name : option string;
  ct_username : option string;
  total_cpu_time : Q
}.

(** [sum(cpu_times[:2])]: [sum] starts from 0 and adds the user time,
    then the system time, each sum rounded to binary64. *)
Definition sum_user_system (cpu_times : pcputimes.t) : Q :=
  Py.float_add (Py.float_add 0 (pcputimes.user cpu_times))
    (pcputimes.system cpu_times).

(** The record of a process whose CPU times are [cpu_times]. *)
Definition cpu_time_record (pinfo : ProcInfo) (cpu_times : pcputimes.t)
  : CpuTimeRecord :=
  mkCpuTimeRecord (info_pid pinfo) (info_name pinfo) (info_username pinfo)
    (sum_user_system cpu_times).

(** Whether [if cpu_times:] holds. *)
Definition has_cpu_times (pinfo : ProcInfo) : bool :=
  match info_cpu_times pinfo with
  | Some _ => true
  | None => false
  end.

(** The loop of [get_top_cpu_processes]: a process without CPU times
    ([if cpu_times:] fails on [None]) adds nothing. *)
Fixpoint processes_with_cpu_times (procs : list ProcInfo)
  : list CpuTimeRecord :=
  match procs with
  | [] => []
  | pinfo :: rest =>
      match info_cpu_times pinfo with
      | Some cpu_times =>
          cpu_time_record pinfo cpu_times
          :: processes_with_cpu_times rest
      | None => processes_with_cpu_times rest
      end
  end.

Definition get_top_cpu_processes (procs : list ProcInfo) (limit : Z)
  : list CpuTimeRecord :=
  let sorted_processes :=
    Py.sorted_desc total_cpu_time (processes_with_cpu_times procs) in
  Py.slice_to limit sorted_processes.

(** *** get_memory_range_processes *)

(** The dictionaries that [get_memory_range_processes] builds. *)
Record MemoryRecord := mkMemoryRecord {
  mr_pid : Z;
  mr_name : option string;
  mr_username : option string;
  rss_mb : Q
}.

(** The resident bytes that a record stands for: [rss_mb] is
    [rss_bytes / (1024 * 1024)]. *)
Definition rss_bytes (r : MemoryRecord) : Q :=
  (rss_mb r * inject_Z (1024 * 1024))%Q.

(** The record of a process whose memory information is [mem_info]. *)
Definition memory_record (pinfo : ProcInfo) (mem_info : pmem.t)
  : MemoryRecord :=
  mkMemoryRecord (info_pid pinfo) (info_name pinfo) (info_username pinfo)
    (inject_Z (pmem.rss mem_info) / inject_Z (1024 * 1024))%Q.

(** [mb * 1024 * 1024] *)
Definition megabytes (mb : Q) : Q := (mb * 1024 * 1024)%Q.

(** Whether [if mem_info and mem_info.rss:] holds. *)
Definition has_resident_memory (pinfo : ProcInfo) : bool :=
  match info_memory_info pinfo with
  | Some mem_info => negb (pmem.rss mem_info =? 0)
  | None => false
  end.

(** [min_bytes <= rss_bytes <= max_bytes] *)
Definition in_range (min_bytes max_bytes : Q) (rss_bytes : Z) : bool :=
  Qle_bool min_bytes (inject_Z rss_bytes)
  && Qle_bool (inject_Z rss_bytes) max_bytes.

(** The loop of [get_memory_range_processes]: [if mem_info and
    mem_info.rss] fails on [None] and on a resident size of 0. *)
Fixpoint matching_processes (min_bytes max_bytes : Q)
    (procs : list ProcInfo) : list MemoryRecord :=
  match procs with
  | [] => []
  | pinfo :: rest =>
      match info_memory_info pinfo with
      | Some mem_info =>
          if negb (pmem.rss mem_info =? 0) then
            let rss_bytes := pmem.rss mem_info in
            if in_range min_bytes max_bytes rss_bytes then
              memory_record pinfo mem_info
              :: matching_processes min_bytes max_bytes rest
            else matching_processes min_bytes max_bytes rest
          else matching_processes min_bytes max_bytes rest
      | None => matching_processes min_bytes max_bytes rest
      end
  end.

Definition get_memory_range_processes (procs : list ProcInfo)
    (min_mb max_mb : Q) : list MemoryRecord :=
  let min_bytes := megabytes min_mb in
  let max_bytes := megabytes max_mb in
  Py.sorted_desc rss_mb (matching_processes min_bytes max_bytes procs).

(** *** run_background_monitor *)

(** What one pass of the loop observes: the clock, the host gauges and
    the process table. *)
Record Tick := mkTick {
  tick_time : Q;
  tick_host : HostReads;
  tick_table : list ProcInfo
}.

(** The AI client of the loop, decided once at its entry. *)
Definition make_ai_client (groq_api_key : option string)
  : option Aimon.Groq :=
  match groq_api_key with
  | Some key =>
      if Py.truthy key then
        match Aimon.initialize_client key with
        | Py.Ok client => Some client
        | Py.Raise _ => None
        end
      else None
  | None => None
  end.

Section Loop.

Variable str_value : Json.value -> string.
Variable format_2f : Q -> string.
Variable post : Aimon.Request -> Aimon.PostOutcome.

(** What one pass of the loop did with the analysis. *)
Inductive Pass : Type :=
| Skipped
| Analysed (report : Aimon.Report)
| Crashed (e : Py.error).

(** Whether [analyze_system_data] was called in the pass. *)
Definition invoked (pass : Pass) : bool :=
  match pass with
  | Skipped => false
  | Analysed _ | Crashed _ => true
  end.

(** The body of the [while True] loop, before the sleep: what the
    pass did, and [last_ai_check_time] after it.  An exception that
    [analyze_system_data] lets pass leaves the body before the
    assignment. *)
Definition loop_body (ai_client : option Aimon.Groq)
    (ai_check_interval : Z) (last_ai_check_time : Q) (t : Tick)
  : Pass * Q :=
  let current_time := tick_time t in
  let system_info := get_system_info (tick_host t) in
  let processes := list_processes None None (tick_table t) in
  match ai_client with
  | Some client =>
      if Qle_bool (inject_Z ai_check_interval)
           (current_time - last_ai_check_time)
      then
        match Aimon.analyze_system_data str_value format_2f post client
                system_info processes with
        | Py.Ok report => (Analysed report, current_time)
        | Py.Raise e => (Crashed e, last_ai_check_time)
        end
      else (Skipped, last_ai_check_time)
  | None => (Skipped, last_ai_check_time)
  end.

(** The gate as a reading of it would have it at one pass with a
    client: the interval 0 calls the analysis, an interval above the
    elapsed time does not, and a call always sets [last_ai_check_time] to
    the time of the pass. *)
Definition gate_as_stated (client : Aimon.Groq) (ai_check_interval : Z)
    (last_ai_check_time : Q) (t : Tick) : Prop :=
  let pass := loop_body (Some client) ai_check_interval last_ai_check_time t in
  (ai_check_interval = 0 -> invoked (fst pass) = true)
  /\ ((tick_time t - last_ai_check_time < inject_Z ai_check_interval)%Q ->
      invoked (fst pass) = false)
  /\ (invoked (fst pass) = true -> snd pass = tick_time t).

(** The loop over the passes that the clock and the interrupt allow:
    for each pass, its time and what it did.  A pass that raises is
    the last one ([except Exception] leaves the loop). *)
Fixpoint loop (ai_client : option Aimon.Groq) (ai_check_interval : Z)
    (last_ai_check_time : Q) (ticks : list Tick) : list (Q * Pass) :=
  match ticks with
  | [] => []
  | t :: ticks' =>
      let (pass, last') :=
        loop_body ai_client ai_check_interval last_ai_check_time t in
      (tick_time t, pass)
      :: match pass with
         | Crashed _ => []
         | _ => loop ai_client ai_check_interval last' ticks'
         end
  end.

(** [run_background_monitor]: [start] is the clock when the loop is
    entered. *)
Definition run_background_monitor (groq_api_key : option string)
    (ai_check_interval : Z) (start : Q) (ticks : list Tick)
  : list (Q * Pass) :=
  loop (make_ai_client groq_api_key) ai_check_interval start ticks.

(** *** main *)

(** The parsed command line: [--top-cpu] and [--mem-range] are [None]
    when they are not given. *)
Record Args := mkArgs {
  arg_system : bool;
  arg_processes : bool;
  arg_procname : option string;
  arg_cmdline : option string;
  arg_run_in_background : bool;
  arg_interval : Z;
  arg_ai_interval : Z;
  arg_top_cpu : option Z;
  arg_mem_range : option (Q * Q)
}.

(** What [main] finds around it: the environment variable, the clock at
    the start of the loop and the passes that the loop makes before the
    interrupt, the host gauges and the process table. *)
Record World := mkWorld {
  env_groq_api_key : option string;
  clock_start : Q;
  passes : list Tick;
  host : HostReads;
  table : list ProcInfo
}.

(** What a branch of [main] computes and prints. *)
Inductive Output : Type :=
| Background (trace : list (Q * Pass))
| SystemShown (system_info : list (string * gauge))
| ProcessesShown (processes : list ProcessRecord)
| TopCpuShown (limit : Z) (top : list CpuTimeRecord)
| MemRangeShown (min_mb max_mb : Q) (found : list MemoryRecord)
| HelpShown.

(** [any([args.system, args.processes, args.run_in_background,
    args.top_cpu, args.mem_range])]: the limit 0 is false, a range of two
    numbers is true. *)
Definition any_given (args : Args) : bool :=
  arg_system args || arg_processes args || arg_run_in_background args
  || match arg_top_cpu args with
     | Some limit => negb (limit =? 0)
     | None => false
     end
  || match arg_mem_range args with
     | Some _ => true
     | None => false
     end.

(** [main], after the command line is parsed. *)
Definition main (w : World) (args : Args) : list Output :=
  if arg_run_in_background args then
    [Background
       (run_background_monitor (env_groq_api_key w) (arg_ai_interval args)
          (clock_start w) (passes w))]
  else
    (if arg_system args then [SystemShown (get_system_info (host w))]
     else if arg_processes args then
       [ProcessesShown
          (list_processes (arg_procname args) (arg_cmdline args) (table w))]
     else
       match arg_top_cpu args with
       | Some limit =>
           [TopCpuShown limit (get_top_cpu_processes (table w) limit)]
       | None =>
           match arg_mem_range args with
           | Some (min_mb, max_mb) =>
               [MemRangeShown min_mb max_mb
                  (get_memory_range_processes (table w) min_mb max_mb)]
           | None => []
           end
       end)
    ++ (if any_given args then [] else [HelpShown]).

End Loop.

End SystemMonitor.

(* ===================================================================== *)
(** ** Facts about the Python built-ins *)
(* ===================================================================== *)

Section SortedFacts.
Context {A : Type}.
Variable key : A -> Q.

Lemma insert_desc_perm (x : A) (l : list A) :
  Permutation (Py.insert_desc key x l) (x :: l).
Proof.
  induction l as [|y l IH]; simpl.
  - apply Permutation_refl.
  - destruct (Qle_bool (key y) (key x)).
    + apply Permutation_refl.
    + apply perm_trans with (y :: x :: l).
      * apply perm_skip, IH.
      * apply perm_swap.
Qed.

Lemma sorted_desc_perm (l : list A) :
  Permutation (Py.sorted_desc key l) l.
Proof.
  induction l as [|x l IH]; simpl.
  - apply perm_nil.
  - eapply perm_trans; [apply insert_desc_perm|].
    apply perm_skip, IH.
Qed.

Lemma sorted_desc_length (l : list A) :
  length (Py.sorted_desc key l) = length l.
Proof. apply Permutation_length, sorted_desc_perm. Qed.

Lemma sorted_desc_In (x : A) (l : list A) :
  In x (Py.sorted_desc key l) <-> In x l.
Proof.
  split; apply Permutation_in;
    [|apply Permutation_sym]; apply sorted_desc_perm.
Qed.

Lemma insert_desc_descending (x : A) (l : list A) :
  Py.descending key l -> Py.descending key (Py.insert_desc key x l).
Proof.
  unfold Py.descending.
  induction l as [|y l IH]; simpl; intros Hs.
  - constructor; constructor.
  - inversion Hs as [|? ? Hl Hy]; subst.
    destruct (Qle_bool (key y) (key x)) eqn:E.
    + apply Qle_bool_iff in E.
      constructor; [exact Hs|].
      constructor; [exact E|].
      rewrite Forall_forall in *. intros z Hz.
      specialize (Hy z Hz). cbv beta in *. lra.
    + assert (Hlt : (key x < key y)%Q).
      { apply Qnot_le_lt. intros H. apply Qle_bool_iff in H. congruence. }
      constructor; [apply IH, Hl|].
      rewrite Forall_forall in *. intros z Hz.
      apply (Permutation_in _ (insert_desc_perm x l)) in Hz.
      destruct Hz as [<-|Hz]; [cbv beta; lra|apply Hy, Hz].
Qed.

Lemma sorted_desc_descending (l : list A) :
  Py.descending key (Py.sorted_desc key l).
Proof.
  induction l as [|x l IH]; simpl.
  - constructor.
  - apply insert_desc_descending, IH.
Qed.

(** Inserting [x] moves it past elements of a strictly greater key
    only, so the elements of every key keep their order. *)
Lemma insert_desc_with_key (k : Q) (x : A) (l : list A) :
  Py.with_key key k (Py.insert_desc key x l)
  = Py.with_key key k (x :: l).
Proof.
  unfold Py.with_key.
  induction l as [|y l IH]; simpl; [reflexivity|].
  destruct (Qle_bool (key y) (key x)) eqn:E; simpl; [reflexivity|].
  rewrite IH. simpl.
  destruct (Qeq_bool (key x) k) eqn:Ex, (Qeq_bool (key y) k) eqn:Ey;
    try reflexivity.
  apply Qeq_bool_iff in Ex, Ey.
  assert (H : Qle_bool (key y) (key x) = true).
  { apply Qle_bool_iff. rewrite Ex, Ey. apply Qle_refl. }
  congruence.
Qed.

Lemma sorted_desc_stable (k : Q) (l : list A) :
  Py.with_key key k (Py.sorted_desc key l) = Py.with_key key k l.
Proof.
  induction l as [|x l IH]; simpl; [reflexivity|].
  rewrite insert_desc_with_key.
  unfold Py.with_key in *. simpl. rewrite IH. reflexivity.
Qed.

Lemma descending_head_max (x : A) (l : list A) (y : A) :
  Py.descending key (x :: l) -> In y l -> (key y <= key x)%Q.
Proof.
  intros Hs Hy. inversion Hs as [|? ? _ Hx]; subst.
  rewrite Forall_forall in Hx. apply Hx, Hy.
Qed.

Lemma with_key_In (k : Q) (x : A) (l : list A) :
  In x (Py.with_key key k l) <-> In x l /\ (key x == k)%Q.
Proof.
  unfold Py.with_key. rewrite filter_In, Qeq_bool_iff. reflexivity.
Qed.

(** A stable descending sort is determined by its three properties, so
    [Py.sorted_desc] is the list that any such sort returns. *)
Lemma descending_stable_unique (l1 l2 : list A) :
  Py.descending key l1 -> Py.descending key l2 ->
  (forall k, Py.with_key key k l1 = Py.with_key key k l2) ->
  l1 = l2.
Proof.
  revert l2. induction l1 as [|x l1 IH]; intros l2 H1 H2 Hk.
  - destruct l2 as [|y l2]; [reflexivity|].
    specialize (Hk (key y)). unfold Py.with_key in Hk. simpl in Hk.
    rewrite (proj2 (Qeq_bool_iff _ _) (Qeq_refl (key y))) in Hk.
    discriminate.
  - destruct l2 as [|y l2].
    + specialize (Hk (key x)). unfold Py.with_key in Hk. simpl in Hk.
      rewrite (proj2 (Qeq_bool_iff _ _) (Qeq_refl (key x))) in Hk.
      discriminate.
    + assert (Hxy : (key x == key y)%Q).
      { apply Qle_antisym.
        - assert (Hin : In x (y :: l2)).
          { apply (with_key_In (key x)). rewrite <- Hk.
            apply with_key_In. split; [left; reflexivity|apply Qeq_refl]. }
          destruct Hin as [->|Hin]; [apply Qle_refl|].
          apply (descending_head_max _ _ _ H2 Hin).
        - assert (Hin : In y (x :: l1)).
          { apply (with_key_In (key y)). rewrite Hk.
            apply with_key_In. split; [left; reflexivity|apply Qeq_refl]. }
          destruct Hin as [->|Hin]; [apply Qle_refl|].
          apply (descending_head_max _ _ _ H1 Hin). }
      assert (Hhead : x = y).
      { pose proof (Hk (key x)) as H. unfold Py.with_key in H. simpl in H.
        rewrite (proj2 (Qeq_bool_iff _ _) (Qeq_refl (key x))) in H.
        rewrite (proj2 (Qeq_bool_iff _ _) (Qeq_sym _ _ Hxy)) in H.
        congruence. }
      subst y. f_equal. apply IH.
      * inversion H1; assumption.
      * inversion H2; assumption.
      * intros k. specialize (Hk k). unfold Py.with_key in *. simpl in Hk.
        destruct (Qeq_bool (key x) k); congruence.
Qed.

Lemma sorted_desc_unique (l s : list A) :
  Permutation s l -> Py.descending key s ->
  (forall k, Py.with_key key k s = Py.with_key key k l) ->
  s = Py.sorted_desc key l.
Proof.
  intros _ Hs Hk. apply descending_stable_unique.
  - exact Hs.
  - apply sorted_desc_descending.
  - intros k. rewrite sorted_desc_stable. apply Hk.
Qed.




End SortedFacts.

Lemma slice_to_nonneg {A : Type} (stop : Z) (l : list A) :
  0 <= stop -> Py.slice_to stop l = firstn (Z.to_nat stop) l.
Proof.
  intros H. unfold Py.slice_to.
  destruct (Z.ltb_spec stop 0); [lia|reflexivity].
Qed.

(** [sorted([(1,'a'), (3,'b'), (1,'c'), (3,'d')], key=first, reverse=True)]
    keeps ['b'] before ['d'] and ['a'] before ['c']. *)
Example sorted_desc_keeps_ties :
  Py.sorted_desc (fun p : Q * string => fst p)
    [(1%Q, "a"%string); (3%Q, "b"%string); (1%Q, "c"%string);
     (3%Q, "d"%string)]
  = [(3%Q, "b"%string); (3%Q, "d"%string); (1%Q, "a"%string);
     (1%Q, "c"%string)].
Proof. reflexivity. Qed.

Example slice_to_examples :
  Py.slice_to 2 [1; 2; 3] = [1; 2]
  /\ Py.slice_to 5 [1; 2; 3] = [1; 2; 3]
  /\ Py.slice_to 0 [1; 2; 3] = []
  /\ Py.slice_to (-1) [1; 2; 3] = [1; 2]
  /\ Py.slice_to (-7) [1; 2; 3] = [].
Proof. repeat split; reflexivity. Qed.

(** Binary64 sums as Python prints them: [0.1 + 0.2] is
    [0.30000000000000004], and [0.2 + 0.3] and [0.1 + 0.4] are both
    [0.5]. *)
Example float_add_examples :
  (Py.float_add (3602879701896397 # 36028797018963968)
     (3602879701896397 # 18014398509481984)
   == 1351079888211149 # 4503599627370496)%Q
  /\ (Py.float_add (3602879701896397 # 18014398509481984)
        (5404319552844595 # 18014398509481984) == 1 # 2)%Q
  /\ (Py.float_add (3602879701896397 # 36028797018963968)
        (3602879701896397 # 9007199254740992) == 1 # 2)%Q
  /\ (Py.float_add 0 (3602879701896397 # 36028797018963968)
      == 3602879701896397 # 36028797018963968)%Q
  /\ (Py.round64 (1 # 3) == 6004799503160661 # 18014398509481984)%Q
  /\ (Py.round64 (- (1 # 3)) == - (6004799503160661 # 18014398509481984))%Q.
Proof. repeat split; vm_compute; reflexivity. Qed.

Example strip_examples :
  Py.strip "  gsk key  " = "gsk key"%string
  /\ Py.strip "   " = ""%string
  /\ Py.strip "" = ""%string.
Proof. repeat split; reflexivity. Qed.

(* ===================================================================== *)
(** ** The process queries *)
(* ===================================================================== *)

Section ProcessQueries.
Import SystemMonitor.


Lemma matching_processes_In (lo hi : Q) (procs : list ProcInfo)
    (r : MemoryRecord) :
  In r (matching_processes lo hi procs) <->
  exists pinfo mem_info,
    In pinfo procs /\ info_memory_info pinfo = Some mem_info
    /\ pmem.rss mem_info <> 0
    /\ in_range lo hi (pmem.rss mem_info) = true
    /\ r = memory_record pinfo mem_info.
Proof.
  induction procs as [|p procs IH]; simpl.
  - split; [contradiction|]. intros (? & ? & [] & _).
  - split.
    + destruct (info_memory_info p) as [m|] eqn:Em.
      * destruct (Z.eqb_spec (pmem.rss m) 0) as [E0|E0]; simpl.
        -- intros H. apply IH in H. destruct H as (q & mq & Hq & Hrest).
           exists q, mq. tauto.
        -- destruct (in_range lo hi (pmem.rss m)) eqn:Er.
           ++ intros [<-|H].
              ** exists p, m. tauto.
              ** apply IH in H. destruct H as (q & mq & Hq & Hrest).
                 exists q, mq. tauto.
           ++ intros H. apply IH in H. destruct H as (q & mq & Hq & Hrest).
              exists q, mq. tauto.
      * intros H. apply IH in H. destruct H as (q & mq & Hq & Hrest).
        exists q, mq. tauto.
    + intros (q & mq & [->|Hq] & Hm & H0 & Hr & ->).
      * rewrite Hm. destruct (Z.eqb_spec (pmem.rss mq) 0); [contradiction|].
        simpl. rewrite Hr. left. reflexivity.
      * assert (Hin : In (memory_record q mq) (matching_processes lo hi procs)).
        { apply IH. exists q, mq. tauto. }
        destruct (info_memory_info p) as [m|]; [|exact Hin].
        destruct (negb (pmem.rss m =? 0)); [|exact Hin].
        destruct (in_range lo hi (pmem.rss m)); [right|]; exact Hin.
Qed.

(** The loop looks at the processes with resident memory only. *)
Lemma matching_processes_filter (lo hi : Q) (procs : list ProcInfo) :
  matching_processes lo hi procs
  = matching_processes lo hi (filter has_resident_memory procs).
Proof.
  induction procs as [|p procs IH]; simpl; [reflexivity|].
  unfold has_resident_memory at 1.
  destruct (info_memory_info p) as [m|] eqn:Em; [|exact IH].
  destruct (negb (pmem.rss m =? 0)) eqn:E0; [|exact IH].
  simpl. rewrite Em, E0, IH. reflexivity.
Qed.

Lemma in_range_spec (lo hi : Q) (b : Z) :
  in_range lo hi b = true <-> (lo <= inject_Z b /\ inject_Z b <= hi)%Q.
Proof.
  unfold in_range. rewrite andb_true_iff, !Qle_bool_iff. reflexivity.
Qed.

Lemma memory_record_bytes (pinfo : ProcInfo) (m : pmem.t) :
  (rss_bytes (memory_record pinfo m) == inject_Z (pmem.rss m))%Q.
Proof.
  unfold rss_bytes, memory_record. simpl. field.
Qed.

Lemma descending_rss_bytes (l : list MemoryRecord) :
  Py.descending rss_mb l -> Py.descending rss_bytes l.
Proof.
  unfold Py.descending. induction 1 as [|x l Hl IH Hx]; constructor.
  - exact IH.
  - rewrite Forall_forall in *. intros y Hy. specialize (Hx y Hy).
    cbv beta in *. unfold rss_bytes.
    apply Qmult_le_compat_r; [exact Hx|]. discriminate.
Qed.

End ProcessQueries.



(** A limit of 0 returns the empty list. *)
Lemma top_cpu_processes_zero (procs : list ProcInfo) :
  SystemMonitor.get_top_cpu_processes procs 0 = [].
Proof. reflexivity. Qed.

(** A negative limit drops that many records from the end of the sorted
    list instead. *)
Lemma top_cpu_processes_negative_length (procs : list ProcInfo) (limit : Z) :
  limit < 0 ->
  length (SystemMonitor.get_top_cpu_processes procs limit)
  = Z.to_nat
      (Z.of_nat (length (SystemMonitor.processes_with_cpu_times procs))
       + limit).
Proof.
  intros Hneg. unfold SystemMonitor.get_top_cpu_processes, Py.slice_to.
  rewrite sorted_desc_length.
  destruct (Z.ltb_spec limit 0); [|lia].
  rewrite length_firstn, sorted_desc_length. lia.
Qed.

(** C3.  With the limit -1 and two processes of 5 and 3 CPU seconds,
    [get_top_cpu_processes] returns the process of 5 seconds, not the
    empty list: the slice [[:limit]] of a negative limit drops the last
    records. *)
Theorem top_cpu_processes_negative_limit_not_empty :
  SystemMonitor.get_top_cpu_processes
    [ mkProcInfo 10 (Some "a"%string) None None None
        (Some (pcputimes.mk 2 1 0 0)) None;
      mkProcInfo 11 (Some "b"%string) None None None
        (Some (pcputimes.mk 4 1 0 0)) None ]
    (-1)
  = [ SystemMonitor.mkCpuTimeRecord 11 (Some "b"%string) None
        (SystemMonitor.sum_user_system (pcputimes.mk 4 1 0 0)) ]
  /\ (SystemMonitor.sum_user_system (pcputimes.mk 4 1 0 0) == 5)%Q.
Proof. split; vm_compute; reflexivity. Qed.

(** C2.  Every record that [get_memory_range_processes] returns is the
    record of a process whose resident bytes lie between
    [min_mb * 1024 * 1024] and [max_mb * 1024 * 1024], both included; the
    result is in descending order of the resident bytes; and when
    [min_mb > max_mb] the result is the empty list. *)
Theorem memory_range_bounds_sorted
    (procs : list ProcInfo) (min_mb max_mb : Q) :
  let result := SystemMonitor.get_memory_range_processes procs min_mb max_mb in
  (forall r, In r result ->
     (min_mb * 1024 * 1024 <= SystemMonitor.rss_bytes r)%Q
     /\ (SystemMonitor.rss_bytes r <= max_mb * 1024 * 1024)%Q
     /\ exists pinfo mem_info,
          In pinfo procs /\ info_memory_info pinfo = Some mem_info
          /\ r = SystemMonitor.memory_record pinfo mem_info
          /\ (SystemMonitor.rss_bytes r == inject_Z (pmem.rss mem_info))%Q)
  /\ Py.descending SystemMonitor.rss_bytes result
  /\ ((max_mb < min_mb)%Q -> result = []).
Proof.
  intros result. unfold result, SystemMonitor.get_memory_range_processes.
  split; [|split].
  - intros r Hr. apply sorted_desc_In in Hr.
    apply matching_processes_In in Hr.
    destruct Hr as (p & m & Hp & Hm & _ & Hrange & ->).
    apply in_range_spec in Hrange. unfold SystemMonitor.megabytes in Hrange.
    pose proof (memory_record_bytes p m) as Hb.
    split; [rewrite Hb; tauto|]. split; [rewrite Hb; tauto|].
    exists p, m. tauto.
  - apply descending_rss_bytes, sorted_desc_descending.
  - intros Hinv.
    destruct (SystemMonitor.matching_processes _ _ procs) as [|r l] eqn:E;
      [reflexivity|].
    assert (Hr : In r (SystemMonitor.matching_processes
                         (SystemMonitor.megabytes min_mb)
                         (SystemMonitor.megabytes max_mb) procs))
      by (rewrite E; left; reflexivity).
    apply matching_processes_In in Hr.
    destruct Hr as (p & m & _ & _ & _ & Hrange & _).
    apply in_range_spec in Hrange. unfold SystemMonitor.megabytes in Hrange.
    exfalso. lra.
Qed.

(** The witness of C2: the bounds 2 and 1 MB, and a process of 1.5 MB. *)
Lemma memory_range_bounds_sorted_witness :
  (1 < 2)%Q
  /\ SystemMonitor.get_memory_range_processes
       [ mkProcInfo 1 None None None None None
           (Some (pmem.mk 1572864 0)) ] 2 1
     = [].
Proof.
  split; [reflexivity|].
  apply (memory_range_bounds_sorted
           [ mkProcInfo 1 None None None None None
               (Some (pmem.mk 1572864 0)) ] 2 1).
  reflexivity.
Defined.

(** C10.  [get_memory_range_processes] never returns a record for a
    process whose resident bytes are 0 or whose memory information is
    unavailable, whatever the bounds: every returned record is the record
    of a process with memory information and resident bytes other than 0,
    no returned record stands for 0 bytes, and the result is the one for
    the table without those processes.  This holds with [min_mb = 0]
    too. *)
Theorem memory_range_skips_zero_and_unavailable
    (procs : list ProcInfo) (min_mb max_mb : Q) :
  let result := SystemMonitor.get_memory_range_processes procs min_mb max_mb in
  (forall r, In r result ->
     exists pinfo mem_info,
       In pinfo procs /\ info_memory_info pinfo = Some mem_info
       /\ pmem.rss mem_info <> 0
       /\ r = SystemMonitor.memory_record pinfo mem_info)
  /\ (forall r, In r result -> ~ (SystemMonitor.rss_bytes r == 0)%Q)
  /\ result
     = SystemMonitor.get_memory_range_processes
         (filter SystemMonitor.has_resident_memory procs) min_mb max_mb
  /\ SystemMonitor.get_memory_range_processes
       (filter (fun p => negb (SystemMonitor.has_resident_memory p)) procs)
       0 max_mb
     = [].
Proof.
  intros result. unfold result, SystemMonitor.get_memory_range_processes.
  assert (Hin : forall r,
    In r (Py.sorted_desc SystemMonitor.rss_mb
            (SystemMonitor.matching_processes
               (SystemMonitor.megabytes min_mb)
               (SystemMonitor.megabytes max_mb) procs)) ->
    exists pinfo mem_info,
      In pinfo procs /\ info_memory_info pinfo = Some mem_info
      /\ pmem.rss mem_info <> 0
      /\ r = SystemMonitor.memory_record pinfo mem_info).
  { intros r Hr. apply sorted_desc_In in Hr.
    apply matching_processes_In in Hr.
    destruct Hr as (p & m & Hp & Hm & H0 & _ & ->).
    exists p, m. tauto. }
  split; [exact Hin|]. split; [|split].
  - intros r Hr. destruct (Hin r Hr) as (p & m & _ & _ & H0 & ->).
    rewrite memory_record_bytes. intros Hq. apply H0.
    unfold Qeq in Hq. simpl in Hq. lia.
  - rewrite matching_processes_filter at 1. reflexivity.
  - rewrite matching_processes_filter.
    replace (filter SystemMonitor.has_resident_memory
               (filter (fun p => negb (SystemMonitor.has_resident_memory p))
                  procs))
      with (@nil ProcInfo); [reflexivity|].
    clear. induction procs as [|p procs IH]; simpl; [reflexivity|].
    destruct (SystemMonitor.has_resident_memory p) eqn:E; simpl;
      [exact IH|]. rewrite E. exact IH.
Qed.

(** The witness of C10: with the bounds 0 and 10 MB, a process of 0
    resident bytes and a process without memory information are left
    out, and the process of 1 MB is returned. *)
Lemma memory_range_skips_zero_and_unavailable_witness :
  let zero := mkProcInfo 1 None None None None None (Some (pmem.mk 0 0)) in
  let unavailable := mkProcInfo 2 None None None None None None in
  let one_mb :=
    mkProcInfo 3 None None None None None (Some (pmem.mk 1048576 0)) in
  let result :=
    SystemMonitor.get_memory_range_processes [zero; unavailable; one_mb]
      0 10 in
  result = [SystemMonitor.memory_record one_mb (pmem.mk 1048576 0)]
  /\ ~ (SystemMonitor.rss_bytes
          (SystemMonitor.memory_record one_mb (pmem.mk 1048576 0)) == 0)%Q.
Proof.
  intros zero unavailable one_mb result. split; [reflexivity|].
  apply (proj1 (proj2 (memory_range_skips_zero_and_unavailable
                         [zero; unavailable; one_mb] 0 10))).
  left. reflexivity.
Defined.

(* ===================================================================== *)
(** ** The inference client *)
(* ===================================================================== *)

Section StringFacts.

Lemma lstrip_all_space (s : string) :
  Py.all_space s = true -> Py.lstrip s = EmptyString.
Proof.
  induction s as [|c s IH]; simpl; [reflexivity|].
  destruct (Py.isspace c); simpl; [exact IH|discriminate].
Qed.

Lemma strip_all_space (s : string) :
  Py.all_space s = true -> Py.strip s = EmptyString.
Proof.
  intros H. unfold Py.strip. rewrite (lstrip_all_space s H). reflexivity.
Qed.










End StringFacts.

(** A key that is not empty constructs a client that holds the stripped
    key. *)
Lemma Groq_init_nonempty (api_key : string) :
  api_key <> EmptyString ->
  Aimon.Groq_init api_key
  = Py.Ok (Aimon.mkGroq (Py.strip api_key) "https://api.groq.com/openai/v1").
Proof.
  intros H. unfold Aimon.Groq_init.
  destruct api_key; [contradiction|reflexivity].
Qed.

(** The empty key is refused. *)
Lemma Groq_init_empty :
  Aimon.Groq_init "" = Py.Raise (Py.ValueError "API key is required").
Proof. reflexivity. Qed.

(** A key of white space only is accepted, and the client holds the empty
    key. *)
Lemma Groq_init_whitespace_only (api_key : string) :
  api_key <> EmptyString -> Py.all_space api_key = true ->
  Aimon.Groq_init api_key
  = Py.Ok (Aimon.mkGroq "" "https://api.groq.com/openai/v1").
Proof.
  intros Hne Hsp. rewrite (Groq_init_nonempty api_key Hne).
  rewrite (strip_all_space api_key Hsp). reflexivity.
Qed.

(** C7.  The key of one space constructs a client, whose key is the empty
    string: [Groq.__init__] tests the key before it strips it, where
    [get_ai_response_content] tests its input after the strip. *)
Theorem Groq_init_accepts_blank_key :
  Aimon.Groq_init " "
  = Py.Ok (Aimon.mkGroq "" "https://api.groq.com/openai/v1")
  /\ (forall str_value post client,
        Aimon.get_ai_response_content str_value post client " "
        = Py.Raise (Py.ValueError "Input is required")).
Proof. split; reflexivity. Qed.

(** The response of the specification's example returns its content. *)
Lemma extract_content_ok :
  Aimon.extract_content
    (Json.Dict
       [("choices"%string,
         Json.List_
           [Json.Dict
              [("message"%string,
                Json.Dict [("content"%string, Json.Str "ok")])]])])
  = Py.Ok (Json.Str "ok").
Proof. reflexivity. Qed.

(** An empty list of choices is a malformed response. *)
Lemma extract_content_no_choice :
  Aimon.extract_content (Json.Dict [("choices"%string, Json.List_ [])])
  = Py.Raise (Py.Exception_ "Malformed response from Groq API").
Proof. reflexivity. Qed.

Lemma getitem_key_error (v : Json.value) (k : string) (e : Py.error) :
  Json.getitem_key v k = Py.Raise e -> e = Py.KeyError \/ e = Py.TypeError.
Proof.
  destruct v; simpl; try (intros [= <-]; tauto).
  destruct (Py.get k items); intros [= <-]. tauto.
Qed.

Lemma getitem_index_error (v : Json.value) (i : Z) (e : Py.error) :
  Json.getitem_index v i = Py.Raise e ->
  e = Py.KeyError \/ e = Py.IndexError \/ e = Py.TypeError.
Proof.
  destruct v; simpl; try (intros [= <-]; tauto).
  - destruct (Json.position i (String.length s)) as [j|];
      [destruct (String.get j s)|]; intros [= <-]; tauto.
  - destruct (Json.position i (length l)) as [j|];
      [destruct (nth_error l j)|]; intros [= <-]; tauto.
Qed.

(** The extraction returns the content, raises the malformed-response
    exception, or lets a [TypeError] pass. *)
Lemma extract_content_outcomes (response_json : Json.value) :
  (exists content, Aimon.extract_content response_json = Py.Ok content)
  \/ Aimon.extract_content response_json
     = Py.Raise (Py.Exception_ "Malformed response from Groq API")
  \/ Aimon.extract_content response_json = Py.Raise Py.TypeError.
Proof.
  unfold Aimon.extract_content.
  destruct (Json.getitem_key response_json "choices") as [c|e] eqn:E1; simpl.
  2:{ destruct (getitem_key_error _ _ _ E1) as [-> | ->]; tauto. }
  destruct (Json.getitem_index c 0) as [f|e] eqn:E2; simpl.
  2:{ destruct (getitem_index_error _ _ _ E2) as [-> | [-> | ->]]; tauto. }
  destruct (Json.getitem_key f "message") as [m|e] eqn:E3; simpl.
  2:{ destruct (getitem_key_error _ _ _ E3) as [-> | ->]; tauto. }
  destruct (Json.getitem_key m "content") as [x|e] eqn:E4; simpl.
  2:{ destruct (getitem_key_error _ _ _ E4) as [-> | ->]; tauto. }
  left. exists x. reflexivity.
Qed.

(** C5.  On the response [{"choices": null}], in which
    [choices[0].message.content] is absent, the extraction raises
    [TypeError], not the malformed-response exception: the handler
    catches [KeyError] and [IndexError] only.  The same holds when
    [message] is [null] and when the response is a list. *)
Theorem extract_content_type_error_escapes :
  Aimon.extract_content (Json.Dict [("choices"%string, Json.Null)])
  = Py.Raise Py.TypeError
  /\ Aimon.extract_content
       (Json.Dict
          [("choices"%string,
            Json.List_ [Json.Dict [("message"%string, Json.Null)]])])
     = Py.Raise Py.TypeError
  /\ Aimon.extract_content (Json.List_ []) = Py.Raise Py.TypeError.
Proof. repeat split; reflexivity. Qed.

(** [raise_for_status] raises on the statuses 400..599, and on those the
    handler never reads the body: the response of the exception is false
    as a truth value, so the message is the text of the HTTP error. *)
Lemma error_message_error_status
    (str_value : Json.value -> string) (r : Aimon.Response) (msg : string) :
  Aimon.is_error_status r = true ->
  Aimon.error_message str_value (Aimon.mkRequestException msg (Some r)) = msg.
Proof.
  intros H. unfold Aimon.error_message, Aimon.ok. simpl.
  rewrite H. reflexivity.
Qed.

Lemma chat_completions_error_status
    (str_value : Json.value -> string)
    (post : Aimon.Request -> Aimon.PostOutcome) (self : Aimon.Groq)
    (messages : list (string * string)) (model : string)
    (temperature : Q) (max_completion_tokens : Z) (top_p : Q)
    (stream : bool) (stop : option (list string)) (r : Aimon.Response) :
  (forall request, post request = Aimon.PostReturns r) ->
  Aimon.is_error_status r = true ->
  Aimon.chat_completions str_value post self messages model temperature
    max_completion_tokens top_p stream stop
  = Py.Raise (Py.Exception_ ("Groq API Error: " ++ Aimon.http_error_msg r)).
Proof.
  intros Hpost Hstatus. unfold Aimon.chat_completions.
  rewrite Hpost, Hstatus. unfold Aimon.handle_request_exception.
  rewrite (error_message_error_status str_value r _ Hstatus). reflexivity.
Qed.

(** The message of the body is taken when the exception carries a
    response that is true as a truth value, as the response of a
    redirection is. *)
Lemma error_message_from_body
    (str_value : Json.value -> string) (r : Aimon.Response)
    (msg message : string) (error_details err : list (string * Json.value)) :
  Aimon.is_error_status r = false ->
  Aimon.text r <> EmptyString ->
  Aimon.json_ r = inr (Json.Dict error_details) ->
  Py.get "error" error_details = Some (Json.Dict err) ->
  Py.get "message" err = Some (Json.Str message) ->
  Aimon.error_message str_value (Aimon.mkRequestException msg (Some r))
  = message.
Proof.
  intros Hs Ht Hj He Hm. unfold Aimon.error_message, Aimon.ok. simpl.
  rewrite Hs. destruct (Aimon.text r); [contradiction|]. simpl.
  rewrite Hj, He, Hm. reflexivity.
Qed.

(** The call never lets an exception of the HTTP library pass: it returns
    a completion or raises the one exception of the client. *)
Lemma chat_completions_outcomes
    (str_value : Json.value -> string)
    (post : Aimon.Request -> Aimon.PostOutcome) (self : Aimon.Groq)
    (messages : list (string * string)) (model : string)
    (temperature : Q) (max_completion_tokens : Z) (top_p : Q)
    (stream : bool) (stop : option (list string)) :
  (exists c,
     Aimon.chat_completions str_value post self messages model temperature
       max_completion_tokens top_p stream stop = Py.Ok c)
  \/ (exists e,
        Aimon.chat_completions str_value post self messages model temperature
          max_completion_tokens top_p stream stop
        = Py.Raise
            (Py.Exception_
               ("Groq API Error: " ++ Aimon.error_message str_value e))).
Proof.
  unfold Aimon.chat_completions, Aimon.handle_request_exception.
  destruct (post _) as [e|r]; [right; eexists; reflexivity|].
  destruct (Aimon.is_error_status r); [right; eexists; reflexivity|].
  destruct stream; [left; eexists; reflexivity|].
  destruct (Aimon.json_ r); [right|left]; eexists; reflexivity.
Qed.

(** C6.  On HTTP 429 with the body [{"error":{"message":"rate limited"}}]
    the call raises the exception of the client with the text of the HTTP
    error, not with the message of the body: the handler tests
    [e.response] as a truth value, and a response of status 400 to 599 is
    false. *)
Theorem chat_completions_rate_limited_message
    (str_value : Json.value -> string) (self : Aimon.Groq)
    (messages : list (string * string)) (model : string)
    (temperature : Q) (max_completion_tokens : Z) (top_p : Q)
    (stop : option (list string)) :
  Aimon.chat_completions str_value
    (fun _ => Aimon.PostReturns Aimon.rate_limited_response)
    self messages model temperature max_completion_tokens top_p false stop
  = Py.Raise
      (Py.Exception_
         "Groq API Error: 429 Client Error: Too Many Requests for url: https://api.groq.com/openai/v1/chat/completions").
Proof. reflexivity. Qed.

(* ===================================================================== *)
(** ** The host snapshot *)
(* ===================================================================== *)

(** The claim as stated fails where the CPU gauge is read and the memory
    gauge fails: the dictionary is empty, so the CPU reading is lost. *)
Lemma get_system_info_drops_successful_reads :
  ~ SystemMonitor.keeps_successful_reads
      (SystemMonitor.mkHostReads
         (Py.Ok (25 # 2))
         (Py.Raise (Py.Exception_ "virtual_memory failed"))
         (Py.Ok 40%Q) (Py.Ok (1000, 2000))).
Proof.
  intros (Hcpu & _). specialize (Hcpu (25 # 2) eq_refl). discriminate Hcpu.
Qed.

(** C8, amended.  [get_system_info] never raises.  When one of the reads
    fails it returns the empty dictionary, without the gauges that were
    read; when every read succeeds it returns the five fields with their
    values. *)
Theorem get_system_info_all_or_nothing (os : SystemMonitor.HostReads) :
  (forall e,
     SystemMonitor.read_cpu_percent os = Py.Raise e
     \/ SystemMonitor.read_virtual_memory os = Py.Raise e
     \/ SystemMonitor.read_disk_usage os = Py.Raise e
     \/ SystemMonitor.read_net_io_counters os = Py.Raise e ->
     SystemMonitor.get_system_info os = [])
  /\ (forall cpu mem disk net,
        SystemMonitor.read_cpu_percent os = Py.Ok cpu ->
        SystemMonitor.read_virtual_memory os = Py.Ok mem ->
        SystemMonitor.read_disk_usage os = Py.Ok disk ->
        SystemMonitor.read_net_io_counters os = Py.Ok net ->
        SystemMonitor.get_system_info os
        = [ ("cpu_percent"%string, GFloat cpu);
            ("memory_percent"%string, GFloat mem);
            ("disk_percent"%string, GFloat disk);
            ("bytes_sent"%string, GInt (fst net));
            ("bytes_received"%string, GInt (snd net)) ]).
Proof.
  unfold SystemMonitor.get_system_info, SystemMonitor.gather. split.
  - intros e H.
    destruct (SystemMonitor.read_cpu_percent os); simpl; [|reflexivity].
    destruct (SystemMonitor.read_virtual_memory os); simpl; [|reflexivity].
    destruct (SystemMonitor.read_disk_usage os); simpl; [|reflexivity].
    destruct (SystemMonitor.read_net_io_counters os); simpl; [|reflexivity].
    destruct H as [H|[H|[H|H]]]; discriminate H.
  - intros cpu mem disk net -> -> -> ->. reflexivity.
Qed.

(** The witness of C8: the CPU gauge is read, the memory gauge fails. *)
Lemma get_system_info_all_or_nothing_witness :
  SystemMonitor.get_system_info
    (SystemMonitor.mkHostReads
       (Py.Ok (25 # 2))
       (Py.Raise (Py.Exception_ "virtual_memory failed"))
       (Py.Ok 40%Q) (Py.Ok (1000, 2000)))
  = [].
Proof.
  apply (proj1 (get_system_info_all_or_nothing _)
           (Py.Exception_ "virtual_memory failed")).
  right. left. reflexivity.
Defined.

(** When every read succeeds the five fields are there. *)
Example get_system_info_all_reads :
  SystemMonitor.get_system_info
    (SystemMonitor.mkHostReads (Py.Ok (25 # 2)) (Py.Ok 60%Q) (Py.Ok 40%Q)
       (Py.Ok (1000, 2000)))
  = [ ("cpu_percent"%string, GFloat (25 # 2));
      ("memory_percent"%string, GFloat 60);
      ("disk_percent"%string, GFloat 40);
      ("bytes_sent"%string, GInt 1000);
      ("bytes_received"%string, GInt 2000) ].
Proof. reflexivity. Qed.

(* ===================================================================== *)
(** ** The background loop *)
(* ===================================================================== *)

Section LoopFacts.
Import SystemMonitor.

Variable str_value : Json.value -> string.
Variable format_2f : Q -> string.
Variable post : Aimon.Request -> Aimon.PostOutcome.

Local Abbreviation body := (loop_body str_value format_2f post).
Local Abbreviation run := (loop str_value format_2f post).

(** A pass whose interval has elapsed calls the analysis; the time of
    the last check becomes the time of the pass, unless the analysis
    raised and ended the loop. *)
Lemma loop_body_due (client : Aimon.Groq) (interval : Z) (last : Q)
    (t : Tick) :
  (inject_Z interval <= tick_time t - last)%Q ->
  (exists report, body (Some client) interval last t
                  = (Analysed report, tick_time t))
  \/ (exists e, body (Some client) interval last t = (Crashed e, last)).
Proof.
  intros H. apply Qle_bool_iff in H.
  unfold body, loop_body. rewrite H.
  destruct (Aimon.analyze_system_data _ _ _ _ _ _) as [report|e].
  - left. exists report. reflexivity.
  - right. exists e. reflexivity.
Qed.

(** A pass whose interval has not elapsed does not call the analysis
    and keeps the time of the last check. *)
Lemma loop_body_not_due (ai_client : option Aimon.Groq) (interval : Z)
    (last : Q) (t : Tick) :
  (tick_time t - last < inject_Z interval)%Q ->
  body ai_client interval last t = (Skipped, last).
Proof.
  intros H. unfold body, loop_body.
  destruct ai_client as [client|]; [|reflexivity].
  destruct (Qle_bool _ _) eqn:E; [|reflexivity].
  apply Qle_bool_iff in E. lra.
Qed.

(** Without a client no pass calls the analysis. *)
Lemma loop_body_no_client (interval : Z) (last : Q) (t : Tick) :
  body None interval last t = (Skipped, last).
Proof. reflexivity. Qed.

Lemma loop_body_reset (ai_client : option Aimon.Groq) (interval : Z)
    (last : Q) (t : Tick) (report : Aimon.Report) :
  fst (body ai_client interval last t) = Analysed report ->
  snd (body ai_client interval last t) = tick_time t.
Proof.
  unfold body, loop_body.
  destruct ai_client as [client|]; [|discriminate].
  destruct (Qle_bool _ _); [|discriminate].
  destruct (Aimon.analyze_system_data _ _ _ _ _ _); [|discriminate].
  reflexivity.
Qed.

Lemma loop_cons (ai_client : option Aimon.Groq) (interval : Z)
    (last : Q) (t : Tick) (ticks : list Tick) :
  run ai_client interval last (t :: ticks)
  = (tick_time t, fst (body ai_client interval last t))
    :: match fst (body ai_client interval last t) with
       | Crashed _ => []
       | _ => run ai_client interval
                (snd (body ai_client interval last t)) ticks
       end.
Proof.
  cbn [loop].
  destruct (body ai_client interval last t). reflexivity.
Qed.

Lemma loop_zero_interval (client : Aimon.Groq) (ticks : list Tick) :
  forall start : Q,
    Sorted Qle (start :: map tick_time ticks) ->
    Forall (fun entry => invoked (snd entry) = true)
      (run (Some client) 0 start ticks).
Proof.
  induction ticks as [|t ticks IH]; intros start Hs.
  - constructor.
  - simpl in Hs. apply Sorted_inv in Hs. destruct Hs as [Hs Hhd].
    apply HdRel_inv in Hhd.
    assert (Hdue : (inject_Z 0 <= tick_time t - start)%Q).
    { change (inject_Z 0) with 0%Q. lra. }
    rewrite loop_cons.
    destruct (loop_body_due client 0 start t Hdue) as [[report E]|[e E]];
      rewrite E; simpl.
    + constructor; [reflexivity|]. apply IH. exact Hs.
    + constructor; [reflexivity|constructor].
Qed.

Lemma loop_not_due (ai_client : option Aimon.Groq) (interval : Z)
    (start : Q) (ticks : list Tick) :
  Forall (fun t => (tick_time t - start < inject_Z interval)%Q) ticks ->
  run ai_client interval start ticks
  = map (fun t => (tick_time t, Skipped)) ticks.
Proof.
  induction 1 as [|t ticks Ht _ IH]; [reflexivity|].
  rewrite loop_cons.
  rewrite (loop_body_not_due ai_client interval start t Ht). simpl.
  rewrite IH. reflexivity.
Qed.

(** A run in which no pass raised made every pass. *)
Lemma loop_complete (ai_client : option Aimon.Groq) (interval : Z)
    (ticks : list Tick) :
  forall start : Q,
    (forall e, ~ In (Crashed e) (map snd (run ai_client interval start ticks)))
    -> map fst (run ai_client interval start ticks) = map tick_time ticks.
Proof.
  induction ticks as [|t ticks IH]; intros start Hno; [reflexivity|].
  rewrite loop_cons in *.
  destruct (body ai_client interval start t) as [pass last'].
  simpl in *. f_equal.
  destruct pass as [|report|e].
  - apply IH. intros e He. apply (Hno e). right. exact He.
  - apply IH. intros e He. apply (Hno e). right. exact He.
  - exfalso. apply (Hno e). left. reflexivity.
Qed.

End LoopFacts.

(** The gate as stated fails where the clock has stepped back: with
    the interval 0, a last check at 100 and a pass at 99, the elapsed
    time is negative and the analysis is not called. *)
Lemma background_loop_gate_clock_back :
  ~ SystemMonitor.gate_as_stated (fun _ => EmptyString) (fun _ => EmptyString)
      (fun _ => Aimon.PostRaises (Aimon.mkRequestException "unreachable" None))
      (Aimon.mkGroq "key" "https://api.groq.com/openai/v1") 0 100
      (SystemMonitor.mkTick 99
         (SystemMonitor.mkHostReads (Py.Ok 1%Q) (Py.Ok 2%Q) (Py.Ok 3%Q)
            (Py.Ok (4, 5)))
         []).
Proof.
  intros (Hzero & _). specialize (Hzero eq_refl). discriminate Hzero.
Qed.

(** It also fails where the analysis raises: the pass has called it, and
    [last_ai_check_time] stays at 100 while the pass is at 101. *)
Lemma background_loop_gate_raise :
  ~ SystemMonitor.gate_as_stated (fun _ => EmptyString) (fun _ => EmptyString)
      (fun _ => Aimon.PostRaises (Aimon.mkRequestException "unreachable" None))
      (Aimon.mkGroq "key" "https://api.groq.com/openai/v1") 0 100
      (SystemMonitor.mkTick 101
         (SystemMonitor.mkHostReads (Py.Ok 1%Q) (Py.Ok 2%Q) (Py.Ok 3%Q)
            (Py.Ok (4, 5)))
         [mkProcInfo 1 None None None None None None]).
Proof.
  intros (_ & _ & Hreset). specialize (Hreset eq_refl). discriminate Hreset.
Qed.

(** C9, amended.  With a client configured, a pass calls the analysis
    exactly when [current_time - last_ai_check_time >= ai_check_interval]:
    it then runs [analyze_system_data] on the data just collected and, if
    that returns, sets [last_ai_check_time] to the time of the pass; if
    it raises, the loop ends and the time is left as it was.  A pass
    whose interval exceeds the elapsed time does not call the analysis
    and leaves [last_ai_check_time] as it is, and so does every pass of a
    run while the interval has not elapsed since the start.  With the
    interval 0 a pass calls the analysis exactly when the clock is not
    before [last_ai_check_time]; so every pass of a run does when the
    clock does not step back, and the run makes a pass at every tick
    unless the analysis raises. *)
Theorem background_loop_ai_gate
    (str_value : Json.value -> string) (format_2f : Q -> string)
    (post : Aimon.Request -> Aimon.PostOutcome) (client : Aimon.Groq) :
  (forall (interval : Z) (last : Q) (t : SystemMonitor.Tick),
     (inject_Z interval <= SystemMonitor.tick_time t - last)%Q ->
     SystemMonitor.loop_body str_value format_2f post (Some client) interval
       last t
     = match
         Aimon.analyze_system_data str_value format_2f post client
           (SystemMonitor.get_system_info (SystemMonitor.tick_host t))
           (SystemMonitor.list_processes None None
              (SystemMonitor.tick_table t))
       with
       | Py.Ok report =>
           (SystemMonitor.Analysed report, SystemMonitor.tick_time t)
       | Py.Raise e => (SystemMonitor.Crashed e, last)
       end)
  /\ (forall (interval : Z) (last : Q) (t : SystemMonitor.Tick),
        (SystemMonitor.tick_time t - last < inject_Z interval)%Q ->
        SystemMonitor.loop_body str_value format_2f post (Some client)
          interval last t
        = (SystemMonitor.Skipped, last))
  /\ (forall (last : Q) (t : SystemMonitor.Tick),
        (last <= SystemMonitor.tick_time t)%Q <->
        SystemMonitor.invoked
          (fst (SystemMonitor.loop_body str_value format_2f post
                  (Some client) 0 last t)) = true)
  /\ (forall (start : Q) (ticks : list SystemMonitor.Tick),
        Sorted Qle (start :: map SystemMonitor.tick_time ticks) ->
        Forall (fun entry => SystemMonitor.invoked (snd entry) = true)
          (SystemMonitor.loop str_value format_2f post (Some client) 0 start
             ticks))
  /\ (forall (start : Q) (ticks : list SystemMonitor.Tick),
        (forall e,
           ~ In (SystemMonitor.Crashed e)
               (map snd
                  (SystemMonitor.loop str_value format_2f post (Some client)
                     0 start ticks))) ->
        map fst
          (SystemMonitor.loop str_value format_2f post (Some client) 0 start
             ticks)
        = map SystemMonitor.tick_time ticks)
  /\ (forall (interval : Z) (start : Q) (ticks : list SystemMonitor.Tick),
        Forall (fun t => (SystemMonitor.tick_time t - start
                          < inject_Z interval)%Q) ticks ->
        SystemMonitor.loop str_value format_2f post (Some client) interval
          start ticks
        = map (fun t => (SystemMonitor.tick_time t, SystemMonitor.Skipped))
            ticks).
Proof.
  split; [|split; [|split; [|split; [|split]]]].
  - intros interval last t Hdue. apply Qle_bool_iff in Hdue.
    unfold SystemMonitor.loop_body. rewrite Hdue. reflexivity.
  - intros interval last t. apply loop_body_not_due.
  - intros last t. split.
    + intros Hle.
      assert (Hdue : (inject_Z 0 <= SystemMonitor.tick_time t - last)%Q).
      { change (inject_Z 0) with 0%Q. lra. }
      destruct (loop_body_due str_value format_2f post client 0 last t Hdue)
        as [[report E]|[e E]]; rewrite E; reflexivity.
    + intros Hinv.
      destruct (Qlt_le_dec (SystemMonitor.tick_time t) last) as [Hlt|Hle];
        [|exact Hle].
      assert (Hnot : (SystemMonitor.tick_time t - last < inject_Z 0)%Q).
      { change (inject_Z 0) with 0%Q. lra. }
      rewrite (loop_body_not_due str_value format_2f post (Some client) 0
                 last t Hnot) in Hinv.
      discriminate Hinv.
  - intros start ticks. apply loop_zero_interval.
  - intros start ticks. apply loop_complete.
  - intros interval start ticks. apply loop_not_due.
Qed.

(** The witness of C9: a pass 5 seconds after the last check with an
    interval of 10 seconds, a pass 20 seconds after it, whose analysis
    returns the error of the unreachable endpoint, and a run of two
    ticks with the interval 0. *)
Lemma background_loop_ai_gate_witness :
  let str_value := fun _ : Json.value => EmptyString in
  let format_2f := fun _ : Q => EmptyString in
  let post := fun _ : Aimon.Request =>
    Aimon.PostRaises (Aimon.mkRequestException "unreachable" None) in
  let client := Aimon.mkGroq "key" "https://api.groq.com/openai/v1" in
  let host :=
    SystemMonitor.mkHostReads (Py.Ok 1%Q) (Py.Ok 2%Q) (Py.Ok 3%Q)
      (Py.Ok (4, 5)) in
  ((105 - 100 < inject_Z 10)%Q
   /\ SystemMonitor.loop_body str_value format_2f post (Some client) 10 100
        (SystemMonitor.mkTick 105 host [])
      = (SystemMonitor.Skipped, 100%Q))
  /\ ((inject_Z 10 <= 120 - 100)%Q
      /\ SystemMonitor.loop_body str_value format_2f post (Some client) 10 100
           (SystemMonitor.mkTick 120 host [])
         = (SystemMonitor.Analysed
              (Aimon.AnalysisError
                 (Py.Exception_ "Groq API Error: unreachable")),
            120%Q))
  /\ (Sorted Qle [100%Q; 100%Q; 101%Q]
      /\ Forall (fun entry => SystemMonitor.invoked (snd entry) = true)
           (SystemMonitor.loop str_value format_2f post (Some client) 0 100
              [SystemMonitor.mkTick 100 host [];
               SystemMonitor.mkTick 101 host []])).
Proof.
  intros str_value format_2f post client host.
  assert (Hclock : Sorted Qle [100%Q; 100%Q; 101%Q]).
  { repeat constructor; unfold Qle; simpl; lia. }
  assert (Hdue : (inject_Z 10 <= 120 - 100)%Q).
  { unfold Qle; simpl; lia. }
  split; [split|split; [split|split]].
  - reflexivity.
  - apply (proj1 (proj2
             (background_loop_ai_gate str_value format_2f post client))).
    reflexivity.
  - exact Hdue.
  - rewrite (proj1 (background_loop_ai_gate str_value format_2f post client)
               10 100%Q (SystemMonitor.mkTick 120 host []) Hdue).
    reflexivity.
  - exact Hclock.
  - apply (proj1 (proj2 (proj2 (proj2
             (background_loop_ai_gate str_value format_2f post client))))
             100%Q
             [SystemMonitor.mkTick 100 host [];
              SystemMonitor.mkTick 101 host []]).
    exact Hclock.
Defined.

(* ===================================================================== *)
(** ** The prompt *)
(* ===================================================================== *)

Section PromptFacts.
Import Aimon.

Variable format_2f : Q -> string.





(** A command line of at most 100 characters is rendered whole. *)
Lemma cmdline_display_short (p : ProcessRecord) :
  (String.length (cmdline p) <= 100)%nat ->
  cmdline_display p
  = Py.replace carriage_return "" (Py.replace newline " " (cmdline p)).
Proof.
  intros H. unfold cmdline_display.
  destruct (Nat.ltb_spec 100 (String.length (cmdline p))); [lia|].
  reflexivity.
Qed.

Lemma sorted_by_cpu_percent_ok (processes : list ProcessRecord) :
  forallb has_cpu_percent processes = true ->
  sorted_by_cpu_percent processes
  = Py.Ok (Py.sorted_desc cpu_key processes).
Proof.
  intros H. unfold sorted_by_cpu_percent.
  destruct processes as [|p [|q l]]; try reflexivity.
  rewrite H. reflexivity.
Qed.

(** The sort raises exactly on two or more processes of which one has
    no CPU percentage. *)
Lemma sorted_by_cpu_percent_raises (processes : list ProcessRecord) :
  (2 <= length processes)%nat ->
  forallb has_cpu_percent processes = false ->
  sorted_by_cpu_percent processes = Py.Raise Py.TypeError.
Proof.
  intros Hlen H. unfold sorted_by_cpu_percent.
  destruct processes as [|p [|q l]]; simpl in Hlen; try lia.
  rewrite H. reflexivity.
Qed.

Lemma process_line_head_ok (p : ProcessRecord) :
  has_cpu_percent p = true ->
  exists head, process_line_head format_2f p = Py.Ok head.
Proof.
  unfold has_cpu_percent, process_line_head.
  destruct (cpu_percent p); [|discriminate].
  intros _. eexists. reflexivity.
Qed.

Lemma process_lines_ok (ps : list ProcessRecord) :
  forallb has_cpu_percent ps = true ->
  exists lines,
    process_lines format_2f ps = Py.Ok lines
    /\ Forall2
         (fun p line =>
            exists head,
              process_line_head format_2f p = Py.Ok head
              /\ line = (head ++ cmdline_display p ++ nl)%string)
         ps lines.
Proof.
  induction ps as [|p ps IH]; intros H.
  - exists []. split; [reflexivity|constructor].
  - simpl in H. apply andb_true_iff in H. destruct H as [Hp Hps].
    destruct (IH Hps) as (lines & El & Hl).
    destruct (process_line_head_ok p Hp) as (head & Eh).
    exists ((head ++ cmdline_display p ++ nl)%string :: lines). split.
    + cbn [process_lines]. unfold process_line. rewrite Eh. cbn [Py.bind].
      rewrite El. reflexivity.
    + constructor; [|exact Hl]. exists head. split; [exact Eh|reflexivity].
Qed.

Lemma forallb_firstn {A : Type} (f : A -> bool) (n : nat) (l : list A) :
  forallb f l = true -> forallb f (firstn n l) = true.
Proof.
  rewrite !forallb_forall. intros H x Hx. apply H.
  rewrite <- (firstn_skipn n l). apply in_or_app. left. exact Hx.
Qed.

Lemma forallb_sorted_desc {A : Type} (f : A -> bool) (key : A -> Q)
    (l : list A) :
  forallb f l = true -> forallb f (Py.sorted_desc key l) = true.
Proof.
  rewrite !forallb_forall. intros H x Hx. apply H.
  apply (sorted_desc_In key). exact Hx.
Qed.

(** Whenever the selection returns, it is the first 20 of the stable
    descending sort. *)
Lemma processes_for_prompt_inv (processes selected : list ProcessRecord) :
  processes_for_prompt processes = Py.Ok selected ->
  selected = firstn 20 (Py.sorted_desc cpu_key processes).
Proof.
  unfold processes_for_prompt, sorted_by_cpu_percent.
  destruct processes as [|p [|q l]].
  - intros [= <-]. reflexivity.
  - intros [= <-]. reflexivity.
  - destruct (forallb has_cpu_percent (p :: q :: l)); [|discriminate].
    cbn [Py.bind]. intros [= <-]. apply slice_to_nonneg. lia.
Qed.

Lemma process_lines_inv (ps : list ProcessRecord) :
  forall lines,
    process_lines format_2f ps = Py.Ok lines ->
    Forall2
      (fun p line =>
         exists head,
           process_line_head format_2f p = Py.Ok head
           /\ line = (head ++ cmdline_display p ++ nl)%string)
      ps lines.
Proof.
  induction ps as [|p ps IH]; intros lines; cbn [process_lines].
  - intros [= <-]. constructor.
  - unfold process_line.
    destruct (process_line_head format_2f p) as [head|e] eqn:Eh;
      cbn [Py.bind]; [|discriminate].
    destruct (process_lines format_2f ps) as [rest|e] eqn:El;
      cbn [Py.bind]; [|discriminate].
    intros [= <-]. constructor; [|apply IH; reflexivity].
    exists head. split; [exact Eh|reflexivity].
Qed.

(** A record without a CPU percentage makes the sort or the format
    raise, and no prompt is built. *)
Lemma build_prompt_without_cpu_percent
    (system_info : list (string * gauge)) (processes : list ProcessRecord) :
  forallb has_cpu_percent processes = false ->
  build_prompt format_2f system_info processes = Py.Raise Py.TypeError.
Proof.
  intros H. unfold build_prompt, prompt_process_lines, processes_for_prompt.
  destruct processes as [|p [|q l]].
  - discriminate H.
  - simpl in H. rewrite andb_true_r in H.
    unfold sorted_by_cpu_percent. cbn [Py.bind].
    change (Py.slice_to 20 [p]) with [p].
    cbn [process_lines]. unfold process_line, process_line_head.
    unfold has_cpu_percent in H.
    destruct (cpu_percent p); [discriminate H|reflexivity].
  - rewrite (sorted_by_cpu_percent_raises (p :: q :: l)); [reflexivity| |exact H].
    simpl. lia.
Qed.





End PromptFacts.



(* ===================================================================== *)
(** ** Further properties: the process listing *)
(* ===================================================================== *)

Section ListingFacts.
Import SystemMonitor.

Lemma prefix_iff (sub s : string) :
  String.prefix sub s = true <-> exists b, s = (sub ++ b)%string.
Proof.
  revert s. induction sub as [|c sub IH]; intros s; simpl.
  - split; [intros _; exists s; reflexivity|destruct s; reflexivity].
  - destruct s as [|d s]; simpl.
    + split; [discriminate|intros (b & Hb); discriminate Hb].
    + destruct (Ascii.ascii_dec c d) as [->|Hne].
      * rewrite IH. split; intros (b & Hb); exists b; congruence.
      * split; [discriminate|]. intros (b & Hb). congruence.
Qed.

(** [sub in s] holds exactly when [s] has [sub] somewhere inside. *)
Lemma contains_iff (sub s : string) :
  Py.contains sub s = true <-> exists a b, s = (a ++ sub ++ b)%string.
Proof.
  induction s as [|d s IH].
  - cbn [Py.contains]. rewrite orb_false_r, prefix_iff. split.
    + intros (b & Hb). exists EmptyString, b. exact Hb.
    + intros (a & b & Hab). destruct a; [exists b; exact Hab|discriminate].
  - cbn [Py.contains]. rewrite orb_true_iff, prefix_iff, IH. split.
    + intros [(b & Hb)|(a & b & Hab)].
      * exists EmptyString, b. exact Hb.
      * exists (String d a), b. simpl. congruence.
    + intros (a & b & Hab). destruct a as [|e a].
      * left. exists b. exact Hab.
      * right. exists a, b. simpl in Hab. congruence.
Qed.




Lemma list_process_spec (procname flt : option string) (pinfo : ProcInfo) :
  list_process procname flt pinfo
  = if name_passes procname pinfo
       && cmdline_passes flt (cmdline (process_record pinfo))
    then Some (process_record pinfo) else None.
Proof.
  unfold list_process, name_passes, cmdline_passes, filtered_out, given,
    process_record.
  cbn [cmdline].
  destruct procname as [f|]; [destruct (Py.truthy f)|];
    cbn [negb orb andb];
    try destruct (info_name pinfo) as [n|];
    try destruct (Py.contains (Py.lower f) (Py.lower n));
    cbn [negb orb andb]; try reflexivity;
    destruct flt as [g|]; try destruct (Py.truthy g);
    cbn [negb orb andb]; try reflexivity;
    destruct (Py.contains (Py.lower g) _); reflexivity.
Qed.

Lemma list_processes_In (procname flt : option string)
    (procs : list ProcInfo) (r : ProcessRecord) :
  In r (list_processes procname flt procs) <->
  exists pinfo,
    In pinfo procs /\ r = process_record pinfo
    /\ name_passes procname pinfo = true
    /\ cmdline_passes flt (cmdline r) = true.
Proof.
  induction procs as [|p procs IH]; cbn [list_processes].
  - split; [contradiction|]. intros (? & [] & _).
  - rewrite list_process_spec.
    destruct (name_passes procname p) eqn:En;
      [destruct (cmdline_passes flt (cmdline (process_record p))) eqn:Ec|];
      cbn [andb In]; rewrite ?IH.
    + split.
      * intros [<-|(q & Hq & Hrest)]; [exists p|exists q]; tauto.
      * intros (q & [->|Hq] & -> & Hrest); [left; reflexivity|].
        right. exists q. tauto.
    + split.
      * intros (q & Hq & Hrest). exists q. tauto.
      * intros (q & [->|Hq] & -> & Hn & Hc); [congruence|].
        exists q. tauto.
    + split.
      * intros (q & Hq & Hrest). exists q. tauto.
      * intros (q & [->|Hq] & -> & Hn & Hc); [congruence|].
        exists q. tauto.
Qed.

End ListingFacts.

(** X1.  Without filters, and with filters that are the empty string,
    [list_processes] returns one record per process of the table, in
    enumeration order. *)
Theorem list_processes_without_filter
    (procname flt : option string) (procs : list ProcInfo) :
  SystemMonitor.given procname = false ->
  SystemMonitor.given flt = false ->
  SystemMonitor.list_processes procname flt procs
  = map SystemMonitor.process_record procs.
Proof.
  intros Hn Hc. induction procs as [|p procs IH];
    cbn [SystemMonitor.list_processes map]; [reflexivity|].
  rewrite list_process_spec.
  unfold SystemMonitor.name_passes, SystemMonitor.cmdline_passes.
  rewrite Hn, Hc. cbn [negb orb andb]. rewrite IH. reflexivity.
Qed.

Lemma list_processes_without_filter_witness :
  let procs :=
    [ mkProcInfo 1 (Some "init"%string) None (Some ["/sbin/init"%string])
        (Some 0%Q) None None;
      mkProcInfo 2 None None None None None None ] in
  SystemMonitor.given (Some ""%string) = false
  /\ SystemMonitor.given None = false
  /\ map pid (SystemMonitor.list_processes (Some ""%string) None procs)
     = [1; 2].
Proof.
  intros procs. split; [reflexivity|]. split; [reflexivity|].
  rewrite (list_processes_without_filter (Some ""%string) None procs
             eq_refl eq_refl).
  reflexivity.
Defined.

(** X2.  The filters of [list_processes] only select: the result is the
    unfiltered records of the processes that pass, in enumeration order,
    so it is never longer than the table. *)
Theorem list_processes_selection
    (procname flt : option string) (procs : list ProcInfo) :
  SystemMonitor.list_processes procname flt procs
  = map SystemMonitor.process_record
      (filter (SystemMonitor.selects procname flt) procs)
  /\ (length (SystemMonitor.list_processes procname flt procs)
      <= length procs)%nat.
Proof.
  assert (H : SystemMonitor.list_processes procname flt procs
              = map SystemMonitor.process_record
                  (filter (SystemMonitor.selects procname flt) procs)).
  { induction procs as [|p procs IH];
      cbn [SystemMonitor.list_processes filter map]; [reflexivity|].
    unfold SystemMonitor.selects at 1. rewrite list_process_spec.
    destruct (_ && _); cbn [map]; rewrite IH; reflexivity. }
  split; [exact H|]. rewrite H, length_map. apply filter_length_le.
Qed.

(** X3.  The two filters are joined by "and": a record is listed under
    both filters exactly when it is listed under each of them alone. *)
Theorem list_processes_filters_conjoin
    (procname flt : option string) (procs : list ProcInfo)
    (r : ProcessRecord) :
  In r (SystemMonitor.list_processes procname flt procs) <->
  In r (SystemMonitor.list_processes procname None procs)
  /\ In r (SystemMonitor.list_processes None flt procs).
Proof.
  rewrite !list_processes_In. split.
  - intros (p & Hp & Hr & Hn & Hc). split; exists p; tauto.
  - intros [(p & Hp & Hr & Hn & _) (q & _ & _ & _ & Hc)].
    exists p. tauto.
Qed.

(** X4.  With a name filter that is not empty, [list_processes] returns
    exactly the records of the processes that have a name whose lower
    case contains the lower case of the filter; a process without a name
    is never listed. *)
Theorem list_processes_name_filter
    (f : string) (procs : list ProcInfo) (r : ProcessRecord) :
  f <> EmptyString ->
  (In r (SystemMonitor.list_processes (Some f) None procs) <->
   exists pinfo n a b,
     In pinfo procs /\ r = SystemMonitor.process_record pinfo
     /\ info_name pinfo = Some n
     /\ Py.lower n = (a ++ Py.lower f ++ b)%string).
Proof.
  intros Hf. rewrite list_processes_In.
  assert (Hg : SystemMonitor.given (Some f) = true)
    by (destruct f; [contradiction|reflexivity]).
  unfold SystemMonitor.name_passes, SystemMonitor.cmdline_passes.
  rewrite Hg. cbn [SystemMonitor.given negb orb]. split.
  - intros (p & Hp & Hr & Hn & _).
    destruct (info_name p) as [n|] eqn:En; [|discriminate Hn].
    apply contains_iff in Hn. destruct Hn as (a & b & Hab).
    exists p, n, a, b. tauto.
  - intros (p & n & a & b & Hp & Hr & En & Hab).
    exists p. rewrite En. repeat split; try assumption.
    apply contains_iff. exists a, b. exact Hab.
Qed.

Lemma list_processes_name_filter_witness :
  let python :=
    mkProcInfo 7 (Some "Python3"%string) None None None None None in
  let nameless := mkProcInfo 8 None None None None None None in
  "PYTHON"%string <> EmptyString
  /\ In (SystemMonitor.process_record python)
       (SystemMonitor.list_processes (Some "PYTHON"%string) None
          [nameless; python]).
Proof.
  intros python nameless. split; [discriminate|].
  apply (proj2 (list_processes_name_filter "PYTHON"
                  [nameless; python]
                  (SystemMonitor.process_record python)
                  ltac:(discriminate))).
  exists python, "Python3"%string, ""%string, "3"%string.
  repeat split. right. left. reflexivity.
Defined.

(** X5.  With a command-line filter that is not empty, [list_processes]
    returns exactly the records whose command line, the tokens joined by
    spaces (nothing for a process without one), contains the filter in
    lower case. *)
Theorem list_processes_cmdline_filter
    (f : string) (procs : list ProcInfo) (r : ProcessRecord) :
  f <> EmptyString ->
  (In r (SystemMonitor.list_processes None (Some f) procs) <->
   exists pinfo a b,
     In pinfo procs /\ r = SystemMonitor.process_record pinfo
     /\ cmdline r
        = Py.join " "
            (match info_cmdline pinfo with Some l => l | None => [] end)
     /\ Py.lower (cmdline r) = (a ++ Py.lower f ++ b)%string).
Proof.
  intros Hf. rewrite list_processes_In.
  assert (Hg : SystemMonitor.given (Some f) = true)
    by (destruct f; [contradiction|reflexivity]).
  unfold SystemMonitor.name_passes, SystemMonitor.cmdline_passes.
  rewrite Hg. cbn [SystemMonitor.given negb orb]. split.
  - intros (p & Hp & Hr & _ & Hc).
    apply contains_iff in Hc. destruct Hc as (a & b & Hab).
    exists p, a, b. subst r. tauto.
  - intros (p & a & b & Hp & Hr & _ & Hab).
    exists p. repeat split; try assumption.
    apply contains_iff. exists a, b. exact Hab.
Qed.

Lemma list_processes_cmdline_filter_witness :
  let server :=
    mkProcInfo 9 (Some "node"%string) None
      (Some ["node"%string; "Server.js"%string]) None None None in
  "server"%string <> EmptyString
  /\ In (SystemMonitor.process_record server)
       (SystemMonitor.list_processes None (Some "server"%string) [server]).
Proof.
  intros server. split; [discriminate|].
  apply (proj2 (list_processes_cmdline_filter "server" [server]
                  (SystemMonitor.process_record server)
                  ltac:(discriminate))).
  exists server, "node "%string, ".js"%string.
  repeat split. left. reflexivity.
Defined.


(** X7.  Every record of [list_processes] has no memory percentage (the
    tuple of [memory_info] has no [percent]), so its line of the prompt
    shows the memory as N/A; its [rss] is that of the process, or 0
    without memory information. *)
Theorem list_processes_memory_fields
    (format_2f : Q -> string) (procname flt : option string)
    (procs : list ProcInfo) :
  Forall
    (fun r =>
       memory_percent r = None
       /\ Aimon.mem_display format_2f r = "N/A"%string
       /\ exists pinfo,
            In pinfo procs
            /\ pid r = info_pid pinfo
            /\ rss r = match info_memory_info pinfo with
                       | Some m => pmem.rss m
                       | None => 0
                       end)
    (SystemMonitor.list_processes procname flt procs).
Proof.
  apply Forall_forall. intros r Hr. apply list_processes_In in Hr.
  destruct Hr as (p & Hp & -> & _).
  split; [reflexivity|]. split; [reflexivity|].
  exists p. repeat split. exact Hp.
Qed.

(* ===================================================================== *)
(** ** Further properties: the process queries *)
(* ===================================================================== *)

(** X8.  [get_memory_range_processes] is complete: it returns the record
    of a process exactly when the process has memory information, its
    resident bytes are not 0 and lie in the range, both ends included;
    and it returns one record for each such process. *)
Theorem memory_range_complete
    (procs : list ProcInfo) (min_mb max_mb : Q) :
  (forall r,
     In r (SystemMonitor.get_memory_range_processes procs min_mb max_mb) <->
     exists pinfo mem_info,
       In pinfo procs /\ info_memory_info pinfo = Some mem_info
       /\ pmem.rss mem_info <> 0
       /\ (min_mb * 1024 * 1024 <= inject_Z (pmem.rss mem_info))%Q
       /\ (inject_Z (pmem.rss mem_info) <= max_mb * 1024 * 1024)%Q
       /\ r = SystemMonitor.memory_record pinfo mem_info)
  /\ length (SystemMonitor.get_memory_range_processes procs min_mb max_mb)
     = length
         (filter
            (fun pinfo =>
               match info_memory_info pinfo with
               | Some mem_info =>
                   negb (pmem.rss mem_info =? 0)
                   && SystemMonitor.in_range
                        (SystemMonitor.megabytes min_mb)
                        (SystemMonitor.megabytes max_mb)
                        (pmem.rss mem_info)
               | None => false
               end)
            procs).
Proof.
  unfold SystemMonitor.get_memory_range_processes. split.
  - intros r. rewrite sorted_desc_In, matching_processes_In.
    split; intros (p & m & Hp & Hm & H0 & Hrest).
    + destruct Hrest as [Hr ->]. apply in_range_spec in Hr.
      unfold SystemMonitor.megabytes in Hr. exists p, m. tauto.
    + destruct Hrest as (Hlo & Hhi & ->). exists p, m.
      repeat split; try assumption.
      apply in_range_spec. unfold SystemMonitor.megabytes. tauto.
  - rewrite sorted_desc_length.
    induction procs as [|p procs IH]; simpl; [reflexivity|].
    destruct (info_memory_info p) as [m|]; [|exact IH].
    destruct (negb (pmem.rss m =? 0)); [|exact IH].
    destruct (SystemMonitor.in_range _ _ (pmem.rss m)); simpl;
      [f_equal|]; exact IH.
Qed.

(** X9.  A wider range keeps every record of a narrower one. *)
Theorem memory_range_monotone
    (procs : list ProcInfo) (min_mb max_mb min_mb' max_mb' : Q)
    (r : SystemMonitor.MemoryRecord) :
  (min_mb' <= min_mb)%Q -> (max_mb <= max_mb')%Q ->
  In r (SystemMonitor.get_memory_range_processes procs min_mb max_mb) ->
  In r (SystemMonitor.get_memory_range_processes procs min_mb' max_mb').
Proof.
  intros Hlo Hhi. unfold SystemMonitor.get_memory_range_processes.
  rewrite !sorted_desc_In, !matching_processes_In.
  intros (p & m & Hp & Hm & H0 & Hr & ->). exists p, m.
  repeat split; try assumption.
  apply in_range_spec in Hr. apply in_range_spec.
  unfold SystemMonitor.megabytes in *. split; lra.
Qed.

Lemma memory_range_monotone_witness :
  let procs :=
    [ mkProcInfo 1 None None None None None (Some (pmem.mk 2097152 0)) ] in
  (0 <= 1)%Q /\ (3 <= 8)%Q
  /\ In (SystemMonitor.memory_record
           (mkProcInfo 1 None None None None None (Some (pmem.mk 2097152 0)))
           (pmem.mk 2097152 0))
       (SystemMonitor.get_memory_range_processes procs 0 8).
Proof.
  intros procs.
  assert (Hlo : (0 <= 1)%Q) by (unfold Qle; simpl; lia).
  assert (Hhi : (3 <= 8)%Q) by (unfold Qle; simpl; lia).
  split; [exact Hlo|]. split; [exact Hhi|].
  apply (memory_range_monotone procs 1 3 0 8 _ Hlo Hhi).
  left. reflexivity.
Defined.

(** X10.  [get_memory_range_processes] keeps the processes of equal
    resident size in the order of the enumeration, and is the only list
    of the matching records that is in descending order and does so. *)
Theorem memory_range_stable
    (procs : list ProcInfo) (min_mb max_mb : Q) :
  let matching :=
    SystemMonitor.matching_processes (SystemMonitor.megabytes min_mb)
      (SystemMonitor.megabytes max_mb) procs in
  let result := SystemMonitor.get_memory_range_processes procs min_mb max_mb in
  Permutation result matching
  /\ (forall k : Q,
        Py.with_key SystemMonitor.rss_mb k result
        = Py.with_key SystemMonitor.rss_mb k matching)
  /\ (forall other,
        Py.descending SystemMonitor.rss_mb other ->
        (forall k : Q,
           Py.with_key SystemMonitor.rss_mb k other
           = Py.with_key SystemMonitor.rss_mb k matching) ->
        other = result).
Proof.
  intros matching result. unfold result,
    SystemMonitor.get_memory_range_processes. fold matching.
  split; [apply sorted_desc_perm|].
  split; [intros k; apply sorted_desc_stable|].
  intros other Hd Hk. apply descending_stable_unique with
    (key := SystemMonitor.rss_mb).
  - exact Hd.
  - apply sorted_desc_descending.
  - intros k. rewrite sorted_desc_stable. apply Hk.
Qed.

(** X11.  The top [n] processes are the first [n] of the top [m], for
    limits [0 <= n <= m]; and a limit that is not below the population
    returns the whole population, sorted. *)
Theorem top_cpu_processes_prefix
    (procs : list ProcInfo) (n m : Z) :
  0 <= n -> n <= m ->
  SystemMonitor.get_top_cpu_processes procs n
  = firstn (Z.to_nat n) (SystemMonitor.get_top_cpu_processes procs m)
  /\ (Z.of_nat (length (SystemMonitor.processes_with_cpu_times procs)) <= m ->
      Permutation (SystemMonitor.get_top_cpu_processes procs m)
        (SystemMonitor.processes_with_cpu_times procs)).
Proof.
  intros Hn Hm. unfold SystemMonitor.get_top_cpu_processes.
  rewrite !slice_to_nonneg by lia. split.
  - rewrite firstn_firstn. f_equal. lia.
  - intros Hall. rewrite firstn_all2.
    + apply sorted_desc_perm.
    + rewrite sorted_desc_length. lia.
Qed.

Lemma top_cpu_processes_prefix_witness :
  let procs :=
    [ mkProcInfo 1 None None None None (Some (pcputimes.mk 1 1 0 0)) None;
      mkProcInfo 2 None None None None (Some (pcputimes.mk 3 1 0 0)) None;
      mkProcInfo 3 None None None None (Some (pcputimes.mk 2 1 0 0)) None ] in
  0 <= 1 /\ 1 <= 2
  /\ SystemMonitor.get_top_cpu_processes procs 1
     = firstn 1 (SystemMonitor.get_top_cpu_processes procs 2).
Proof.
  intros procs. split; [lia|]. split; [lia|].
  apply (top_cpu_processes_prefix procs 1 2); lia.
Defined.

(** X12.  A process whose CPU times are unavailable never reaches the
    result of [get_top_cpu_processes]: for every limit the result is the
    one for the table without those processes, and every returned record
    is the record of a process with CPU times. *)
Theorem top_cpu_processes_skips_unavailable
    (procs : list ProcInfo) (limit : Z) :
  SystemMonitor.get_top_cpu_processes procs limit
  = SystemMonitor.get_top_cpu_processes
      (filter SystemMonitor.has_cpu_times procs) limit
  /\ (forall r,
        In r (SystemMonitor.get_top_cpu_processes procs limit) ->
        exists pinfo cpu_times,
          In pinfo procs /\ info_cpu_times pinfo = Some cpu_times
          /\ r = SystemMonitor.cpu_time_record pinfo cpu_times)
  /\ SystemMonitor.get_top_cpu_processes
       (filter (fun p => negb (SystemMonitor.has_cpu_times p)) procs) limit
     = [].
Proof.
  assert (Hf : forall l,
    SystemMonitor.processes_with_cpu_times l
    = SystemMonitor.processes_with_cpu_times
        (filter SystemMonitor.has_cpu_times l)).
  { induction l as [|p l IH]; simpl; [reflexivity|].
    unfold SystemMonitor.has_cpu_times at 1.
    destruct (info_cpu_times p) as [t|] eqn:Et; [|exact IH].
    simpl. rewrite Et, IH. reflexivity. }
  assert (Hin : forall l r,
    In r (SystemMonitor.processes_with_cpu_times l) ->
    exists pinfo cpu_times,
      In pinfo l /\ info_cpu_times pinfo = Some cpu_times
      /\ r = SystemMonitor.cpu_time_record pinfo cpu_times).
  { induction l as [|p l IH]; simpl; [contradiction|]. intros r.
    destruct (info_cpu_times p) as [t|] eqn:Et.
    - intros [<-|Hr]; [exists p, t; tauto|].
      destruct (IH r Hr) as (q & tq & Hq & Hrest). exists q, tq. tauto.
    - intros Hr. destruct (IH r Hr) as (q & tq & Hq & Hrest).
      exists q, tq. tauto. }
  unfold SystemMonitor.get_top_cpu_processes. split; [|split].
  - rewrite (Hf procs) at 1. reflexivity.
  - intros r Hr. apply Hin. apply (sorted_desc_In SystemMonitor.total_cpu_time).
    unfold Py.slice_to in Hr.
    match type of Hr with
    | In _ (firstn ?n ?l) => rewrite <- (firstn_skipn n l)
    end.
    apply in_or_app. left. exact Hr.
  - rewrite Hf.
    replace (filter SystemMonitor.has_cpu_times
               (filter (fun p => negb (SystemMonitor.has_cpu_times p)) procs))
      with (@nil ProcInfo).
    + simpl. unfold Py.slice_to. apply firstn_nil.
    + clear. induction procs as [|p procs IH]; simpl; [reflexivity|].
      destruct (SystemMonitor.has_cpu_times p) eqn:E; simpl;
        [exact IH|]. rewrite E. exact IH.
Qed.

(* ===================================================================== *)
(** ** Further properties: the inference client *)
(* ===================================================================== *)

Section StripFacts.

Lemma lstrip_head (s : string) :
  Py.lstrip s = EmptyString
  \/ exists c t, Py.lstrip s = String c t /\ Py.isspace c = false.
Proof.
  induction s as [|c s IH]; simpl; [left; reflexivity|].
  destruct (Py.isspace c) eqn:E; [exact IH|].
  right. exists c, s. split; [reflexivity|exact E].
Qed.

Lemma rstrip_idempotent (s : string) : Py.rstrip (Py.rstrip s) = Py.rstrip s.
Proof.
  induction s as [|c s IH]; [reflexivity|].
  cbn [Py.rstrip]. destruct (Py.rstrip s) as [|d r] eqn:E.
  - destruct (Py.isspace c) eqn:Ec; [reflexivity|].
    cbn [Py.rstrip]. rewrite Ec. reflexivity.
  - cbn [Py.rstrip] in *. rewrite IH. reflexivity.
Qed.

Lemma rstrip_keeps_head (c : ascii) (t : string) :
  Py.isspace c = false -> exists t', Py.rstrip (String c t) = String c t'.
Proof.
  intros Hc. cbn [Py.rstrip]. destruct (Py.rstrip t) as [|d r].
  - rewrite Hc. eexists. reflexivity.
  - eexists. reflexivity.
Qed.

Lemma lstrip_strip (s : string) : Py.lstrip (Py.strip s) = Py.strip s.
Proof.
  unfold Py.strip. destruct (lstrip_head s) as [E|(c & t & E & Hc)];
    rewrite E; [reflexivity|].
  destruct (rstrip_keeps_head c t Hc) as (t' & E'). rewrite E'.
  simpl. rewrite Hc. reflexivity.
Qed.

Lemma strip_truthy_head (s : string) :
  Py.truthy (Py.strip s) = Py.truthy (Py.lstrip s).
Proof.
  unfold Py.strip. destruct (lstrip_head s) as [E|(c & t & E & Hc)];
    rewrite E; [reflexivity|].
  destruct (rstrip_keeps_head c t Hc) as (t' & E'). rewrite E'. reflexivity.
Qed.

Lemma strip_all_space_iff (s : string) :
  Py.truthy (Py.strip s) = negb (Py.all_space s).
Proof.
  rewrite strip_truthy_head.
  induction s as [|c s IH]; simpl; [reflexivity|].
  destruct (Py.isspace c); simpl; [exact IH|reflexivity].
Qed.

End StripFacts.

(** X13.  A key that [Groq.__init__] accepts is held stripped: stripping
    the key of the client again, on either side, changes nothing, and
    the base URL is the one of the Groq API. *)
Theorem Groq_init_key_stripped (key : string) (client : Aimon.Groq) :
  Aimon.Groq_init key = Py.Ok client ->
  Aimon.api_key client = Py.strip key
  /\ Py.lstrip (Aimon.api_key client) = Aimon.api_key client
  /\ Py.rstrip (Aimon.api_key client) = Aimon.api_key client
  /\ Aimon.base_url client = "https://api.groq.com/openai/v1"%string.
Proof.
  unfold Aimon.Groq_init. destruct (negb (Py.truthy key)); [discriminate|].
  intros [= <-]. cbn [Aimon.api_key Aimon.base_url].
  split; [reflexivity|]. split; [apply lstrip_strip|].
  split; [apply rstrip_idempotent|reflexivity].
Qed.

Lemma Groq_init_key_stripped_witness :
  Aimon.Groq_init "  gsk_key "
  = Py.Ok (Aimon.mkGroq "gsk_key" "https://api.groq.com/openai/v1")
  /\ Aimon.api_key
       (Aimon.mkGroq "gsk_key" "https://api.groq.com/openai/v1")
     = Py.strip "  gsk_key ".
Proof.
  split; [reflexivity|].
  apply (Groq_init_key_stripped "  gsk_key "
           (Aimon.mkGroq "gsk_key" "https://api.groq.com/openai/v1")).
  reflexivity.
Defined.

Section ClientFacts.
Import Aimon.

Variable str_value : Json.value -> string.
Variable post : Request -> PostOutcome.

(** The request that [chat_completions] posts. *)
Local Abbreviation request_of self messages model temperature
  max_completion_tokens top_p stream stop :=
  (mkRequest (base_url self ++ "/chat/completions")
     ("Bearer " ++ api_key self) messages model temperature
     max_completion_tokens top_p stream stop).

(** X14.  When the endpoint answers the posted request with a status
    outside 400..599, [chat_completions] returns the lines of the
    response if streaming was asked for, the decoded JSON body as it is
    otherwise, and raises the client's exception with the text of the
    decoding error when the body is not JSON. *)
Theorem chat_completions_success
    (self : Groq) (messages : list (string * string)) (model : string)
    (temperature : Q) (max_completion_tokens : Z) (top_p : Q)
    (stream : bool) (stop : option (list string)) (r : Response) :
  post (request_of self messages model temperature max_completion_tokens
          top_p stream stop) = PostReturns r ->
  is_error_status r = false ->
  chat_completions str_value post self messages model temperature
    max_completion_tokens top_p stream stop
  = if stream then Py.Ok (LineStream (iter_lines r))
    else match json_ r with
         | inr v => Py.Ok (JsonResponse v)
         | inl msg => Py.Raise (Py.Exception_ ("Groq API Error: " ++ msg))
         end.
Proof.
  intros Hpost Hstatus. unfold chat_completions.
  rewrite Hpost, Hstatus. destruct stream; [reflexivity|].
  destruct (json_ r); reflexivity.
Qed.

(** X15.  [chat_completions] returns a completion only for a response
    whose status is outside 400..599, and every exception it raises is
    the client's own, whose message starts with "Groq API Error: " and
    goes on with the text of the transport error or with the message of
    the error body. *)
Theorem chat_completions_failures
    (self : Groq) (messages : list (string * string)) (model : string)
    (temperature : Q) (max_completion_tokens : Z) (top_p : Q)
    (stream : bool) (stop : option (list string)) :
  let outcome :=
    chat_completions str_value post self messages model temperature
      max_completion_tokens top_p stream stop in
  (forall c, outcome = Py.Ok c ->
     exists r,
       post (request_of self messages model temperature
               max_completion_tokens top_p stream stop) = PostReturns r
       /\ is_error_status r = false)
  /\ (forall e, outcome = Py.Raise e ->
        exists exc,
          e = Py.Exception_ ("Groq API Error: " ++ error_message str_value exc)
          /\ String.prefix "Groq API Error: "
               ("Groq API Error: " ++ error_message str_value exc) = true).
Proof.
  intros outcome. unfold outcome, chat_completions, handle_request_exception.
  destruct (post _) as [exc|r].
  - split; [discriminate|]. intros e [= <-]. exists exc.
    split; [reflexivity|]. apply prefix_iff. eexists. reflexivity.
  - destruct (is_error_status r) eqn:Es.
    + split; [discriminate|]. intros e [= <-]. eexists.
      split; [reflexivity|]. apply prefix_iff. eexists. reflexivity.
    + split.
      * intros c _. exists r. split; [reflexivity|exact Es].
      * destruct stream; [discriminate|].
        destruct (json_ r); [|discriminate].
        intros e [= <-]. eexists.
        split; [reflexivity|]. apply prefix_iff. eexists. reflexivity.
Qed.

(** X16.  The message of the handler is the message of the error body
    whenever the exception carries a response that is not an error
    status, with a body that is not empty and decodes to a dictionary
    whose ["error"] is a dictionary with a ["message"]; in every other
    case it is the text of the exception: without a response, with a
    response of status 400..599, with an empty body, with a body that
    is not JSON or not a dictionary, and with an ["error"] that is
    missing, not a dictionary or without a ["message"]. *)
Theorem error_message_cases (e : RequestException) :
  (forall r error_details err m,
     response e = Some r ->
     is_error_status r = false ->
     text r <> EmptyString ->
     json_ r = inr (Json.Dict error_details) ->
     Py.get "error" error_details = Some (Json.Dict err) ->
     Py.get "message" err = Some m ->
     error_message str_value e = format_value str_value m)
  /\ (response e = None -> error_message str_value e = str_e e)
  /\ (forall r,
        response e = Some r ->
        is_error_status r = true \/ text r = EmptyString ->
        error_message str_value e = str_e e)
  /\ (forall r,
        response e = Some r ->
        (forall error_details, json_ r <> inr (Json.Dict error_details)) ->
        error_message str_value e = str_e e)
  /\ (forall r error_details,
        response e = Some r ->
        json_ r = inr (Json.Dict error_details) ->
        Py.get "error" error_details = None ->
        error_message str_value e = str_e e)
  /\ (forall r error_details,
        response e = Some r ->
        json_ r = inr (Json.Dict error_details) ->
        (forall err, Py.get "error" error_details <> Some (Json.Dict err)) ->
        error_message str_value e = str_e e)
  /\ (forall r error_details err,
        response e = Some r ->
        json_ r = inr (Json.Dict error_details) ->
        Py.get "error" error_details = Some (Json.Dict err) ->
        Py.get "message" err = None ->
        error_message str_value e = str_e e).
Proof.
  unfold error_message, ok.
  split; [|split; [|split; [|split; [|split; [|split]]]]].
  - intros r error_details err m -> Hs Ht Hj He Hm.
    rewrite Hs. destruct (text r); [contradiction|].
    cbn [negb andb Py.truthy]. rewrite Hj, He, Hm. reflexivity.
  - intros ->. reflexivity.
  - intros r -> [Hs|Ht].
    + rewrite Hs. reflexivity.
    + rewrite Ht. rewrite andb_false_r. reflexivity.
  - intros r -> Hj. destruct (negb (is_error_status r) && Py.truthy (text r));
      [|reflexivity].
    destruct (json_ r) as [msg|[]]; try reflexivity.
    exfalso. apply (Hj items). reflexivity.
  - intros r error_details -> Hj He.
    destruct (negb (is_error_status r) && Py.truthy (text r));
      [|reflexivity].
    rewrite Hj, He. reflexivity.
  - intros r error_details -> Hj He.
    destruct (negb (is_error_status r) && Py.truthy (text r));
      [|reflexivity].
    rewrite Hj. destruct (Py.get "error" error_details) as [[]|];
      try reflexivity.
    exfalso. apply (He items). reflexivity.
  - intros r error_details err -> Hj He Hm.
    destruct (negb (is_error_status r) && Py.truthy (text r));
      [|reflexivity].
    rewrite Hj, He, Hm. reflexivity.
Qed.

(** X18.  An input that is empty or white space only makes
    [get_ai_response_content] raise [ValueError], whatever the endpoint
    would answer. *)
Theorem get_ai_response_content_blank (client : Groq) (user_input : string) :
  Py.all_space user_input = true ->
  get_ai_response_content str_value post client user_input
  = Py.Raise (Py.ValueError "Input is required").
Proof.
  intros H. unfold get_ai_response_content.
  rewrite (strip_all_space user_input H). reflexivity.
Qed.

(** X19.  For an input that is not blank, [get_ai_response_content]
    posts one request, with the input as the only message, of role
    "user", the default model and no streaming; on a response outside
    400..599 with a JSON body its result is the extraction from that
    body. *)
Theorem get_ai_response_content_success
    (client : Groq) (user_input : string) (r : Response) (v : Json.value) :
  Py.all_space user_input = false ->
  post (request_of client [("user"%string, user_input)]
          "llama-3.3-70b-versatile"%string 1%Q 1024 1%Q false None)
  = PostReturns r ->
  is_error_status r = false ->
  json_ r = inr v ->
  get_ai_response_content str_value post client user_input
  = extract_content v.
Proof.
  intros Hin Hpost Hs Hj. unfold get_ai_response_content.
  rewrite strip_all_space_iff, Hin. cbn [negb].
  unfold chat_completions. rewrite Hpost, Hs, Hj. reflexivity.
Qed.

End ClientFacts.

Lemma position_zero_cons (n : nat) : Json.position 0 (S n) = Some 0%nat.
Proof.
  unfold Json.position. cbn [Z.ltb Z.compare].
  destruct (Z.ltb_spec 0 (Z.of_nat (S n))) as [_|H]; [reflexivity|lia].
Qed.

(** X17.  The extraction returns a content exactly when the response is a
    dictionary whose ["choices"] is a list that starts with a dictionary
    whose ["message"] is a dictionary with a ["content"]; the content is
    returned as it is, whatever JSON value it is. *)
Theorem extract_content_shape (response_json content : Json.value) :
  Aimon.extract_content response_json = Py.Ok content <->
  exists items first rest message,
    response_json = Json.Dict items
    /\ Py.get "choices" items = Some (Json.List_ (Json.Dict first :: rest))
    /\ Py.get "message" first = Some (Json.Dict message)
    /\ Py.get "content" message = Some content.
Proof.
  unfold Aimon.extract_content. split.
  - destruct response_json as [| | | | |l|items];
      try (cbn; discriminate).
    cbn [Json.getitem_key].
    destruct (Py.get "choices" items) as [ch|] eqn:E1;
      [|cbn; discriminate].
    cbn [Py.bind].
    destruct ch as [| | | |s|l|d]; try (cbn; discriminate).
    + cbn [Json.getitem_index].
      destruct (Json.position 0 (String.length s)) as [j|];
        [destruct (String.get j s)|]; cbn; discriminate.
    + destruct l as [|x rest]; [cbn; discriminate|].
      cbn [Json.getitem_index length]. rewrite position_zero_cons.
      cbn [nth_error Py.bind].
      destruct x as [| | | | |l'|first]; try (cbn; discriminate).
      cbn [Json.getitem_key].
      destruct (Py.get "message" first) as [m|] eqn:E2;
        [|cbn; discriminate].
      cbn [Py.bind].
      destruct m as [| | | | |l'|message]; try (cbn; discriminate).
      cbn [Json.getitem_key].
      destruct (Py.get "content" message) as [c|] eqn:E3;
        [|cbn; discriminate].
      intros [= <-]. exists items, first, rest, message. tauto.
  - intros (items & first & rest & message & -> & E1 & E2 & E3).
    cbn [Json.getitem_key]. rewrite E1. cbn [Py.bind Json.getitem_index length].
    rewrite position_zero_cons. cbn [nth_error Py.bind Json.getitem_key].
    rewrite E2. cbn [Py.bind Json.getitem_key]. rewrite E3. reflexivity.
Qed.

Lemma chat_completions_success_witness :
  let client := Aimon.mkGroq "key" "https://api.groq.com/openai/v1" in
  let r :=
    Aimon.mkResponse 200 "OK" "https://api.groq.com/openai/v1/chat/completions"
      "{}" (inr (Json.Dict [])) [] in
  let post := fun _ : Aimon.Request => Aimon.PostReturns r in
  Aimon.is_error_status r = false
  /\ Aimon.chat_completions (fun _ => EmptyString) post client [] "m" 1 16 1
       false None
     = Py.Ok (Aimon.JsonResponse (Json.Dict [])).
Proof.
  intros client r post. split; [reflexivity|].
  apply (chat_completions_success (fun _ => EmptyString) post client [] "m"
           1 16 1 false None r); reflexivity.
Defined.

Lemma chat_completions_failures_witness :
  let client := Aimon.mkGroq "key" "https://api.groq.com/openai/v1" in
  let exc := Aimon.mkRequestException "Connection refused" None in
  let post := fun _ : Aimon.Request => Aimon.PostRaises exc in
  exists e,
    Aimon.chat_completions (fun _ => EmptyString) post client [] "m" 1 16 1
      false None
    = Py.Raise (Py.Exception_
                  ("Groq API Error: "
                   ++ Aimon.error_message (fun _ => EmptyString) e)).
Proof.
  intros client exc post.
  destruct (proj2 (chat_completions_failures (fun _ => EmptyString) post
                     client [] "m" 1 16 1 false None)
              (Py.Exception_ "Groq API Error: Connection refused") eq_refl)
    as (e & He & _).
  exists e. rewrite <- He. reflexivity.
Defined.

(** The witness of X16: an exception that carries the response of a
    redirection, status 302, whose body has an error message. *)
Lemma error_message_cases_witness :
  let r :=
    Aimon.mkResponse 302 "Found"
      "https://api.groq.com/openai/v1/chat/completions"
      "body"
      (inr (Json.Dict
              [("error"%string,
                Json.Dict [("message"%string, Json.Str "moved")])]))
      [] in
  let exc := Aimon.mkRequestException "Exceeded 30 redirects." (Some r) in
  (Aimon.is_error_status r = false /\ Aimon.text r <> EmptyString)
  /\ Aimon.error_message (fun _ => EmptyString) exc = "moved"%string.
Proof.
  intros r exc. split; [split; [reflexivity|discriminate]|].
  apply (proj1 (error_message_cases (fun _ => EmptyString) exc) r
           [("error"%string,
             Json.Dict [("message"%string, Json.Str "moved")])]
           [("message"%string, Json.Str "moved")] (Json.Str "moved"));
    try reflexivity.
  discriminate.
Defined.

Lemma extract_content_shape_witness :
  let message := [("content"%string, Json.Null)] in
  let first := [("message"%string, Json.Dict message)] in
  let items := [("choices"%string, Json.List_ [Json.Dict first])] in
  Aimon.extract_content (Json.Dict items) = Py.Ok Json.Null.
Proof.
  intros message first items.
  apply (proj2 (extract_content_shape (Json.Dict items) Json.Null)).
  exists items, first, [], message. repeat split.
Defined.

Lemma get_ai_response_content_blank_witness :
  Py.all_space "   " = true
  /\ Aimon.get_ai_response_content (fun _ => EmptyString)
       (fun _ => Aimon.PostReturns Aimon.rate_limited_response)
       (Aimon.mkGroq "key" "https://api.groq.com/openai/v1") "   "
     = Py.Raise (Py.ValueError "Input is required").
Proof.
  split; [reflexivity|].
  apply (get_ai_response_content_blank (fun _ => EmptyString)
           (fun _ => Aimon.PostReturns Aimon.rate_limited_response)
           (Aimon.mkGroq "key" "https://api.groq.com/openai/v1") "   ").
  reflexivity.
Defined.

Lemma get_ai_response_content_success_witness :
  let client := Aimon.mkGroq "key" "https://api.groq.com/openai/v1" in
  let body :=
    Json.Dict
      [("choices"%string,
        Json.List_
          [Json.Dict
             [("message"%string,
               Json.Dict [("content"%string, Json.Str "all quiet")])]])] in
  let r :=
    Aimon.mkResponse 200 "OK" "https://api.groq.com/openai/v1/chat/completions"
      "{}" (inr body) [] in
  let post := fun _ : Aimon.Request => Aimon.PostReturns r in
  Py.all_space "status?" = false
  /\ Aimon.is_error_status r = false
  /\ Aimon.get_ai_response_content (fun _ => EmptyString) post client
       "status?"
     = Py.Ok (Json.Str "all quiet").
Proof.
  intros client body r post. split; [reflexivity|]. split; [reflexivity|].
  rewrite (get_ai_response_content_success (fun _ => EmptyString) post client
             "status?" r body eq_refl eq_refl eq_refl eq_refl).
  reflexivity.
Defined.

(* ===================================================================== *)
(** ** Further properties: the analysis *)
(* ===================================================================== *)

Section AnalysisFacts.
Import Aimon.

Variable str_value : Json.value -> string.
Variable format_2f : Q -> string.
Variable post : Request -> PostOutcome.

Lemma replace_absent (c : ascii) (t s : string) :
  Py.contains_char c s = false -> Py.replace c t s = s.
Proof.
  induction s as [|d s IH]; simpl; [reflexivity|].
  intros H. apply orb_false_iff in H. destruct H as [Hd Hs].
  rewrite Hd, (IH Hs). reflexivity.
Qed.

Lemma build_prompt_ok (system_info : list (string * gauge))
    (processes : list ProcessRecord) :
  forallb has_cpu_percent processes = true ->
  exists prompt, build_prompt format_2f system_info processes = Py.Ok prompt.
Proof.
  intros Hcpu. unfold build_prompt.
  destruct processes as [|p ps]; [eexists; reflexivity|].
  unfold prompt_process_lines, processes_for_prompt.
  rewrite (sorted_by_cpu_percent_ok _ Hcpu). cbn [Py.bind].
  rewrite slice_to_nonneg by lia.
  assert (Hsel : forallb has_cpu_percent
                   (firstn (Z.to_nat 20) (Py.sorted_desc cpu_key (p :: ps)))
                 = true).
  { apply forallb_firstn, forallb_sorted_desc, Hcpu. }
  destruct (process_lines_ok format_2f _ Hsel) as (lines & Elines & _).
  rewrite Elines. cbn [Py.bind]. eexists. reflexivity.
Qed.

(** Every prompt starts with the fixed instruction, so it is not
    blank. *)
Lemma build_prompt_not_blank (system_info : list (string * gauge))
    (processes : list ProcessRecord) (prompt : string) :
  build_prompt format_2f system_info processes = Py.Ok prompt ->
  Py.all_space prompt = false.
Proof.
  unfold build_prompt. destruct processes as [|p ps].
  - intros [= <-]. reflexivity.
  - destruct (prompt_process_lines format_2f (p :: ps)) as [lines|e];
      cbn [Py.bind]; [|discriminate].
    intros [= <-]. reflexivity.
Qed.

Lemma analyze_system_data_returns
    (client : Groq) (system_info : list (string * gauge))
    (processes : list ProcessRecord) :
  forallb has_cpu_percent processes = true ->
  exists report,
    analyze_system_data str_value format_2f post client system_info
      processes = Py.Ok report.
Proof.
  intros H. unfold analyze_system_data.
  destruct (build_prompt_ok system_info processes H) as (prompt & E).
  rewrite E. cbn [Py.bind].
  destruct (get_ai_response_content str_value post client prompt);
    eexists; reflexivity.
Qed.

(** X20.  [analyze_system_data] raises exactly when a record of the
    process list has no CPU percentage, and then it raises [TypeError];
    otherwise it returns, whatever the endpoint does. *)
Theorem analyze_system_data_raises
    (client : Groq) (system_info : list (string * gauge))
    (processes : list ProcessRecord) :
  (forallb has_cpu_percent processes = true ->
   exists report,
     analyze_system_data str_value format_2f post client system_info
       processes = Py.Ok report)
  /\ (forallb has_cpu_percent processes = false ->
      analyze_system_data str_value format_2f post client system_info
        processes = Py.Raise Py.TypeError).
Proof.
  unfold analyze_system_data. split; intros H.
  - destruct (build_prompt_ok system_info processes H) as (prompt & E).
    rewrite E. cbn [Py.bind].
    destruct (get_ai_response_content str_value post client prompt);
      eexists; reflexivity.
  - rewrite (build_prompt_without_cpu_percent format_2f system_info
               processes H).
    reflexivity.
Qed.

(** X21.  What [analyze_system_data] reports is the advice, or one of
    three errors of the call: the client's exception, the malformed
    response, or a [TypeError] of the extraction.  It never reports a
    missing input, since the prompt is never blank. *)
Theorem analyze_system_data_reports
    (client : Groq) (system_info : list (string * gauge))
    (processes : list ProcessRecord) (report : Report) :
  analyze_system_data str_value format_2f post client system_info processes
  = Py.Ok report ->
  (exists advice, report = Advice advice)
  \/ (exists exc,
        report
        = AnalysisError
            (Py.Exception_
               ("Groq API Error: " ++ error_message str_value exc)))
  \/ report
     = AnalysisError (Py.Exception_ "Malformed response from Groq API")
  \/ report = AnalysisError Py.TypeError.
Proof.
  unfold analyze_system_data.
  destruct (build_prompt format_2f system_info processes) as [prompt|e]
    eqn:Eb; cbn [Py.bind]; [|discriminate].
  pose proof (build_prompt_not_blank _ _ _ Eb) as Hblank.
  unfold get_ai_response_content.
  rewrite strip_all_space_iff, Hblank. cbn [negb].
  destruct (chat_completions_outcomes str_value post client
              [("user"%string, prompt)] "llama-3.3-70b-versatile" 1 1024 1
              false None) as [(c & Ec)|(exc & Ec)]; rewrite Ec; cbn [Py.bind].
  - destruct c as [v|lines].
    + destruct (extract_content_outcomes v) as [(x & Ex)|[Ex|Ex]];
        rewrite Ex; intros [= <-].
      * left. exists x. reflexivity.
      * right. right. left. reflexivity.
      * right. right. right. reflexivity.
    + intros [= <-]. right. right. right. reflexivity.
  - intros [= <-]. right. left. exists exc. reflexivity.
Qed.

(** X22.  A command line of at most 100 characters without newline and
    carriage return is shown in the prompt as it is. *)
Theorem cmdline_display_verbatim (p : ProcessRecord) :
  (String.length (cmdline p) <= 100)%nat ->
  Py.contains_char newline (cmdline p) = false ->
  Py.contains_char carriage_return (cmdline p) = false ->
  cmdline_display p = cmdline p.
Proof.
  intros Hlen Hnl Hcr. rewrite (cmdline_display_short p Hlen).
  rewrite (replace_absent newline " " _ Hnl).
  apply replace_absent, Hcr.
Qed.

(** X23.  The prompt has exactly one line per process up to 20: the
    number of its process lines is the minimum of 20 and the number of
    processes. *)
Theorem prompt_process_lines_count
    (processes : list ProcessRecord) (lines : list string) :
  prompt_process_lines format_2f processes = Py.Ok lines ->
  length lines = Nat.min 20 (length processes).
Proof.
  unfold prompt_process_lines.
  destruct (processes_for_prompt processes) as [selected|e] eqn:Es;
    cbn [Py.bind]; [|discriminate].
  intros El.
  rewrite <- (Forall2_length (process_lines_inv format_2f selected lines El)).
  rewrite (processes_for_prompt_inv processes selected Es).
  rewrite length_firstn, sorted_desc_length. reflexivity.
Qed.

End AnalysisFacts.

Lemma analyze_system_data_raises_witness :
  let client := Aimon.mkGroq "key" "https://api.groq.com/openai/v1" in
  let post := fun _ : Aimon.Request =>
    Aimon.PostRaises (Aimon.mkRequestException "unreachable" None) in
  let known := mkProcessRecord 1 None None "a" (Some 1%Q) None 0 in
  let unknown := mkProcessRecord 2 None None "b" None None 0 in
  (forallb Aimon.has_cpu_percent [known] = true
   /\ exists report,
        Aimon.analyze_system_data (fun _ => EmptyString)
          (fun _ => EmptyString) post client [] [known] = Py.Ok report)
  /\ (forallb Aimon.has_cpu_percent [known; unknown] = false
      /\ Aimon.analyze_system_data (fun _ => EmptyString)
           (fun _ => EmptyString) post client [] [known; unknown]
         = Py.Raise Py.TypeError).
Proof.
  intros client post known unknown. split; split; try reflexivity.
  - apply (proj1 (analyze_system_data_raises (fun _ => EmptyString)
                    (fun _ => EmptyString) post client [] [known])).
    reflexivity.
Defined.

Lemma analyze_system_data_reports_witness :
  let client := Aimon.mkGroq "key" "https://api.groq.com/openai/v1" in
  let post := fun _ : Aimon.Request =>
    Aimon.PostReturns Aimon.rate_limited_response in
  exists report,
    Aimon.analyze_system_data (fun _ => EmptyString) (fun _ => EmptyString)
      post client [] [] = Py.Ok report
    /\ ((exists advice, report = Aimon.Advice advice)
        \/ (exists exc,
              report
              = Aimon.AnalysisError
                  (Py.Exception_
                     ("Groq API Error: "
                      ++ Aimon.error_message (fun _ => EmptyString) exc)))
        \/ report
           = Aimon.AnalysisError
               (Py.Exception_ "Malformed response from Groq API")
        \/ report = Aimon.AnalysisError Py.TypeError).
Proof.
  intros client post. eexists. split; [reflexivity|].
  apply (analyze_system_data_reports (fun _ => EmptyString)
           (fun _ => EmptyString) post client [] []).
  reflexivity.
Defined.

Lemma cmdline_display_verbatim_witness :
  let p := mkProcessRecord 1 None None "python3 server.py --port 8080"
             (Some 1%Q) None 0 in
  Aimon.cmdline_display p = "python3 server.py --port 8080"%string.
Proof.
  intros p. apply (cmdline_display_verbatim p).
  - simpl. lia.
  - reflexivity.
  - reflexivity.
Defined.

Lemma prompt_process_lines_count_witness :
  let processes :=
    [ mkProcessRecord 1 None None "a" (Some 1%Q) None 0;
      mkProcessRecord 2 None None "b" (Some 2%Q) None 0 ] in
  exists lines,
    Aimon.prompt_process_lines (fun _ => EmptyString) processes = Py.Ok lines
    /\ length lines = 2%nat.
Proof.
  intros processes. eexists. split; [reflexivity|].
  apply (prompt_process_lines_count (fun _ => EmptyString) processes).
  reflexivity.
Defined.

(* ===================================================================== *)
(** ** Further properties: the background loop and the command line *)
(* ===================================================================== *)

Section RunFacts.
Import SystemMonitor.

Variable str_value : Json.value -> string.
Variable format_2f : Q -> string.
Variable post : Aimon.Request -> Aimon.PostOutcome.

Local Abbreviation body := (loop_body str_value format_2f post).
Local Abbreviation run := (loop str_value format_2f post).

Lemma make_ai_client_not_given (groq_api_key : option string) :
  given groq_api_key = false -> make_ai_client groq_api_key = None.
Proof.
  unfold given, make_ai_client. destruct groq_api_key as [key|];
    [|reflexivity].
  intros ->. reflexivity.
Qed.

(** A pass that called the analysis found the interval elapsed. *)
Lemma loop_body_invoked_due (ai_client : option Aimon.Groq) (interval : Z)
    (last : Q) (t : Tick) :
  invoked (fst (body ai_client interval last t)) = true ->
  (inject_Z interval <= tick_time t - last)%Q.
Proof.
  intros H.
  destruct (Qlt_le_dec (tick_time t - last) (inject_Z interval)) as [Hlt|Hle];
    [|exact Hle].
  rewrite (loop_body_not_due str_value format_2f post ai_client interval
             last t Hlt) in H.
  discriminate H.
Qed.

Lemma list_processes_none (procs : list ProcInfo) :
  list_processes None None procs = map process_record procs.
Proof.
  induction procs as [|p procs IH]; cbn [list_processes map];
    [reflexivity|].
  rewrite list_process_spec. cbn [name_passes cmdline_passes given negb orb
    andb]. rewrite IH. reflexivity.
Qed.

(** X24.  Without [GROQ_API_KEY], or with an empty one, the loop makes
    every pass and never calls the analysis. *)
Theorem run_background_monitor_without_key
    (groq_api_key : option string) (ai_check_interval : Z) (start : Q)
    (ticks : list Tick) :
  given groq_api_key = false ->
  run_background_monitor str_value format_2f post groq_api_key
    ai_check_interval start ticks
  = map (fun t => (tick_time t, Skipped)) ticks.
Proof.
  intros H. unfold run_background_monitor.
  rewrite (make_ai_client_not_given groq_api_key H).
  revert start. induction ticks as [|t ticks IH]; intros start;
    [reflexivity|].
  rewrite loop_cons. cbn [loop_body fst snd map]. rewrite IH. reflexivity.
Qed.

(** X25.  The loop never calls the analysis twice within less than the
    interval: between the start of the loop and the first call, and
    between one call and the next, at least [ai_check_interval] seconds
    of the clock have passed. *)
Theorem loop_calls_spaced
    (ai_client : option Aimon.Groq) (ai_check_interval : Z)
    (ticks : list Tick) :
  forall start : Q,
    Sorted (fun earlier later =>
              (inject_Z ai_check_interval <= later - earlier)%Q)
      (start
       :: map fst
            (filter (fun entry => invoked (snd entry))
               (run ai_client ai_check_interval start ticks))).
Proof.
  induction ticks as [|t ticks IH]; intros start.
  - repeat constructor.
  - rewrite loop_cons.
    pose proof (loop_body_invoked_due ai_client ai_check_interval start t)
      as Hdue.
    pose proof (loop_body_reset str_value format_2f post ai_client
                  ai_check_interval start t) as Hreset.
    destruct (body ai_client ai_check_interval start t) as [pass last']
      eqn:E.
    cbn [fst snd] in *. destruct pass as [|report|e]; cbn [filter invoked snd
      map fst].
    + assert (Hlast : last' = start).
      { destruct (Qlt_le_dec (tick_time t - start)
                    (inject_Z ai_check_interval)) as [Hlt|Hle].
        - rewrite (loop_body_not_due str_value format_2f post ai_client
                     ai_check_interval start t Hlt) in E.
          congruence.
        - unfold loop_body in E.
          destruct ai_client as [client|]; [|congruence].
          apply Qle_bool_iff in Hle. rewrite Hle in E.
          destruct (Aimon.analyze_system_data _ _ _ _ _ _); discriminate E. }
      subst last'. apply IH.
    + rewrite (Hreset report eq_refl).
      constructor; [apply IH|]. constructor. apply Hdue. reflexivity.
    + constructor; [repeat constructor|]. constructor. apply Hdue.
      reflexivity.
Qed.

(** X26.  A failure of the endpoint never ends the loop: when every
    process of every pass has a CPU percentage, no pass raises and the
    loop makes every pass, whatever the endpoint answers. *)
Theorem loop_survives_endpoint
    (ai_client : option Aimon.Groq) (ai_check_interval : Z)
    (ticks : list Tick) :
  Forall
    (fun t =>
       forallb
         (fun pinfo =>
            match info_cpu_percent pinfo with
            | Some _ => true
            | None => false
            end)
         (tick_table t) = true)
    ticks ->
  forall start : Q,
    map fst (run ai_client ai_check_interval start ticks)
    = map tick_time ticks
    /\ forall e,
         ~ In (Crashed e)
             (map snd (run ai_client ai_check_interval start ticks)).
Proof.
  induction 1 as [|t ticks Ht _ IH]; intros start.
  - split; [reflexivity|]. intros e [].
  - rewrite loop_cons.
    assert (Hnocrash : forall e,
      fst (body ai_client ai_check_interval start t) <> Crashed e).
    { intros e. unfold loop_body.
      destruct ai_client as [client|]; [|discriminate].
      destruct (Qle_bool _ _); [|discriminate].
      assert (Hcpu : forallb Aimon.has_cpu_percent
                       (list_processes None None (tick_table t)) = true).
      { rewrite list_processes_none, forallb_forall.
        intros r Hr. apply in_map_iff in Hr. destruct Hr as (p & <- & Hp).
        rewrite forallb_forall in Ht. exact (Ht p Hp). }
      destruct (analyze_system_data_returns str_value format_2f post client
                  (get_system_info (tick_host t))
                  (list_processes None None (tick_table t)) Hcpu)
        as (report & ->).
      discriminate. }
    destruct (body ai_client ai_check_interval start t) as [pass last'].
    cbn [fst snd] in *.
    destruct (IH last') as [Htimes Hno].
    destruct pass as [|report|e]; cbn [map fst snd].
    + split; [f_equal; exact Htimes|].
      intros e [He|He]; [discriminate He|exact (Hno e He)].
    + split; [f_equal; exact Htimes|].
      intros e [He|He]; [discriminate He|exact (Hno e He)].
    + exfalso. apply (Hnocrash e). reflexivity.
Qed.

End RunFacts.

Lemma run_background_monitor_without_key_witness :
  let host :=
    SystemMonitor.mkHostReads (Py.Ok 1%Q) (Py.Ok 2%Q) (Py.Ok 3%Q)
      (Py.Ok (4, 5)) in
  let post := fun _ : Aimon.Request =>
    Aimon.PostReturns Aimon.rate_limited_response in
  SystemMonitor.given (Some ""%string) = false
  /\ SystemMonitor.run_background_monitor (fun _ => EmptyString)
       (fun _ => EmptyString) post (Some ""%string) 0 100
       [SystemMonitor.mkTick 100 host []; SystemMonitor.mkTick 110 host []]
     = [(100%Q, SystemMonitor.Skipped); (110%Q, SystemMonitor.Skipped)].
Proof.
  intros host post. split; [reflexivity|].
  apply (run_background_monitor_without_key (fun _ => EmptyString)
           (fun _ => EmptyString) post (Some ""%string) 0 100
           [SystemMonitor.mkTick 100 host []; SystemMonitor.mkTick 110 host []]).
  reflexivity.
Defined.

Lemma loop_survives_endpoint_witness :
  let host :=
    SystemMonitor.mkHostReads (Py.Ok 1%Q) (Py.Ok 2%Q) (Py.Ok 3%Q)
      (Py.Ok (4, 5)) in
  let table :=
    [ mkProcInfo 1 (Some "init"%string) None None (Some 0%Q) None None ] in
  let post := fun _ : Aimon.Request =>
    Aimon.PostRaises (Aimon.mkRequestException "unreachable" None) in
  let client := Aimon.mkGroq "key" "https://api.groq.com/openai/v1" in
  let ticks :=
    [SystemMonitor.mkTick 100 host table; SystemMonitor.mkTick 110 host table]
  in
  map fst
    (SystemMonitor.loop (fun _ => EmptyString) (fun _ => EmptyString) post
       (Some client) 10 90 ticks)
  = [100%Q; 110%Q].
Proof.
  intros host table post client ticks.
  apply (loop_survives_endpoint (fun _ => EmptyString) (fun _ => EmptyString)
           post (Some client) 10 ticks).
  repeat constructor.
Defined.

Section MainFacts.
Import SystemMonitor.

Variable str_value : Json.value -> string.
Variable format_2f : Q -> string.
Variable post : Aimon.Request -> Aimon.PostOutcome.

(** X27.  [main] prints the help exactly when the loop is not asked for,
    neither [--system] nor [--processes] is set, no memory range is
    given and the limit of [--top-cpu] is missing or 0.  With the limit
    0 and no other action it shows the empty top list and then the
    help. *)
Theorem main_help (w : World) (args : Args) :
  (In HelpShown (main str_value format_2f post w args) <->
   arg_run_in_background args = false
   /\ arg_system args = false
   /\ arg_processes args = false
   /\ (arg_top_cpu args = None \/ arg_top_cpu args = Some 0)
   /\ arg_mem_range args = None)
  /\ (arg_run_in_background args = false ->
      arg_system args = false ->
      arg_processes args = false ->
      arg_top_cpu args = Some 0 ->
      arg_mem_range args = None ->
      main str_value format_2f post w args = [TopCpuShown 0 []; HelpShown]).
Proof.
  unfold main, any_given. split.
  - destruct (arg_run_in_background args).
    { split; [intros [H|[]]; discriminate H|intros (H & _); discriminate H]. }
    destruct (arg_system args).
    { cbn. split; [intros [H|[]]; discriminate H|
                   intros (_ & H & _); discriminate H]. }
    destruct (arg_processes args).
    { cbn. split; [intros [H|[]]; discriminate H|
                   intros (_ & _ & H & _); discriminate H]. }
    destruct (arg_top_cpu args) as [limit|].
    + destruct (Z.eqb_spec limit 0) as [->|Hne].
      * destruct (arg_mem_range args) as [[lo hi]|]; cbn.
        -- split; [intros [H|[]]; discriminate H|
                   intros (_ & _ & _ & _ & H); discriminate H].
        -- split; [tauto|intros _; right; left; reflexivity].
      * cbn. split; [intros [H|[]]; discriminate H|].
        intros (_ & _ & _ & [H|H] & _); [discriminate H|].
        injection H as H. contradiction.
    + destruct (arg_mem_range args) as [[lo hi]|]; cbn.
      * split; [intros [H|[]]; discriminate H|
                intros (_ & _ & _ & _ & H); discriminate H].
      * split; [tauto|intros _; left; reflexivity].
  - intros -> -> -> -> ->. reflexivity.
Qed.

(** X28.  [main] takes one action at most, by precedence: the loop
    before everything and alone, then the system information, then the
    process listing, then the top list, then the memory range.  The name
    and command-line filters count for the process listing only. *)
Theorem main_precedence (w : World) (args : Args) :
  (arg_run_in_background args = true ->
   main str_value format_2f post w args
   = [Background
        (run_background_monitor str_value format_2f post
           (env_groq_api_key w) (arg_ai_interval args) (clock_start w)
           (passes w))])
  /\ (arg_run_in_background args = false ->
      exists shown,
        main str_value format_2f post w args
        = shown ++ (if any_given args then [] else [HelpShown])
        /\ (length shown <= 1)%nat
        /\ (arg_system args = true ->
            shown = [SystemShown (get_system_info (host w))])
        /\ (arg_system args = false -> arg_processes args = true ->
            shown
            = [ProcessesShown
                 (list_processes (arg_procname args) (arg_cmdline args)
                    (table w))])
        /\ (arg_system args = false -> arg_processes args = false ->
            forall limit, arg_top_cpu args = Some limit ->
            shown
            = [TopCpuShown limit (get_top_cpu_processes (table w) limit)])
        /\ (arg_system args = false -> arg_processes args = false ->
            arg_top_cpu args = None ->
            forall min_mb max_mb,
              arg_mem_range args = Some (min_mb, max_mb) ->
              shown
              = [MemRangeShown min_mb max_mb
                   (get_memory_range_processes (table w) min_mb max_mb)])).
Proof.
  unfold main. split; [intros ->; reflexivity|].
  intros ->. eexists. split; [reflexivity|].
  destruct (arg_system args); [|destruct (arg_processes args);
    [|destruct (arg_top_cpu args) as [limit|];
      [|destruct (arg_mem_range args) as [[lo hi]|]]]];
    cbn [length]; repeat split; try lia; try discriminate;
    try reflexivity; try (intros; congruence).
Qed.

End MainFacts.

Lemma main_help_witness :
  let host :=
    SystemMonitor.mkHostReads (Py.Ok 1%Q) (Py.Ok 2%Q) (Py.Ok 3%Q)
      (Py.Ok (4, 5)) in
  let w := SystemMonitor.mkWorld None 0 [] host
             [ mkProcInfo 1 None None None None
                 (Some (pcputimes.mk 1 1 0 0)) None ] in
  let args :=
    SystemMonitor.mkArgs false false None None false 10 10 (Some 0) None in
  let post := fun _ : Aimon.Request =>
    Aimon.PostReturns Aimon.rate_limited_response in
  SystemMonitor.main (fun _ => EmptyString) (fun _ => EmptyString) post w args
  = [SystemMonitor.TopCpuShown 0 []; SystemMonitor.HelpShown].
Proof.
  intros host w args post.
  apply (proj2 (main_help (fun _ => EmptyString) (fun _ => EmptyString) post
                  w args)); reflexivity.
Defined.

Lemma main_precedence_witness :
  let host :=
    SystemMonitor.mkHostReads (Py.Ok 1%Q) (Py.Ok 2%Q) (Py.Ok 3%Q)
      (Py.Ok (4, 5)) in
  let w := SystemMonitor.mkWorld None 0 [] host [] in
  let args :=
    SystemMonitor.mkArgs true true None None true 10 10 (Some 3)
      (Some (1%Q, 2%Q)) in
  let post := fun _ : Aimon.Request =>
    Aimon.PostReturns Aimon.rate_limited_response in
  SystemMonitor.main (fun _ => EmptyString) (fun _ => EmptyString) post w args
  = [SystemMonitor.Background []].
Proof.
  intros host w args post.
  apply (proj1 (main_precedence (fun _ => EmptyString) (fun _ => EmptyString)
                  post w args)).
  reflexivity.
Defined.

Lemma list_processes_filters_conjoin_witness :
  let server :=
    mkProcInfo 9 (Some "node"%string) None
      (Some ["node"%string; "server.js"%string]) None None None in
  let shell := mkProcInfo 10 (Some "sh"%string) None None None None None in
  In (SystemMonitor.process_record server)
    (SystemMonitor.list_processes (Some "NODE"%string) (Some "server"%string)
       [shell; server]).
Proof.
  intros server shell.
  apply (proj2 (list_processes_filters_conjoin (Some "NODE"%string)
                  (Some "server"%string) [shell; server]
                  (SystemMonitor.process_record server))).
  split; left; reflexivity.
Defined.

Lemma memory_range_complete_witness :
  let p := mkProcInfo 1 None None None None None (Some (pmem.mk 2097152 0)) in
  In (SystemMonitor.memory_record p (pmem.mk 2097152 0))
    (SystemMonitor.get_memory_range_processes [p] 2 2).
Proof.
  intros p.
  apply (proj2 (proj1 (memory_range_complete [p] 2 2)
                  (SystemMonitor.memory_record p (pmem.mk 2097152 0)))).
  exists p, (pmem.mk 2097152 0).
  repeat split; try (left; reflexivity); try discriminate;
    unfold Qle; simpl; lia.
Defined.

Lemma memory_range_stable_witness :
  let a := mkProcInfo 1 None None None None None (Some (pmem.mk 1048576 0)) in
  let c := mkProcInfo 3 None None None None None (Some (pmem.mk 1048576 0)) in
  [ SystemMonitor.memory_record a (pmem.mk 1048576 0);
    SystemMonitor.memory_record c (pmem.mk 1048576 0) ]
  = SystemMonitor.get_memory_range_processes [a; c] 0 10.
Proof.
  intros a c.
  apply (proj2 (proj2 (memory_range_stable [a; c] 0 10))).
  - repeat constructor; unfold Qle; simpl; lia.
  - intros k. reflexivity.
Defined.

Lemma top_cpu_processes_skips_unavailable_witness :
  let known :=
    mkProcInfo 1 None None None None (Some (pcputimes.mk 1 1 0 0)) None in
  let unknown := mkProcInfo 2 None None None None None None in
  exists pinfo cpu_times,
    In pinfo [unknown; known] /\ info_cpu_times pinfo = Some cpu_times
    /\ SystemMonitor.cpu_time_record known (pcputimes.mk 1 1 0 0)
       = SystemMonitor.cpu_time_record pinfo cpu_times.
Proof.
  intros known unknown.
  apply (proj1 (proj2 (top_cpu_processes_skips_unavailable [unknown; known] 5))).
  left. reflexivity.
Defined.
